(** * Android pause/resume event pump of SDL (lime 8.2.2)

    A shallow embedding of
    [project/lib/sdl/src/video/android/SDL_androidevents.c]:
    the two pumps [Android_PumpEvents_Blocking] and
    [Android_PumpEvents_NonBlocking], the EGL context backup and restore
    they trigger, and a small machine that interleaves the host thread
    (which posts the two semaphores), the application (which polls the
    event queue) and the pump.

    C [int]s are [Z]; semaphore counts ([Uint32]) are [nat]; the
    file-level and function-level [static] variables are fields of the
    state; every call that leaves the file is recorded in the output of
    the run.

    The file is read with [SDL_VIDEO_OPENGL_EGL] defined, the
    configuration in which the two context functions exist.  The cast
    [(float)max_rate] is [float_of_int]: the single-precision value
    nearest to the integer, itself an integer, kept as a [Z]. *)

From Stdlib Require Import ZArith List Bool Lia Permutation.
Import ListNotations.
Open Scope Z_scope.

(** ** Data model *)

(** The event types the file pushes or looks for.  A window event is
    identified by its window event id. *)
Inductive SDL_EventType : Type :=
| SDL_QUIT
| SDL_APP_WILLENTERBACKGROUND
| SDL_APP_DIDENTERBACKGROUND
| SDL_APP_WILLENTERFOREGROUND
| SDL_APP_DIDENTERFOREGROUND
| SDL_RENDER_DEVICE_RESET
| SDL_WINDOWEVENT_MINIMIZED
| SDL_WINDOWEVENT_RESTORED
| SDL_KEYDOWN.

Definition SDL_EventType_eqb (a b : SDL_EventType) : bool :=
  match a, b with
  | SDL_QUIT, SDL_QUIT
  | SDL_APP_WILLENTERBACKGROUND, SDL_APP_WILLENTERBACKGROUND
  | SDL_APP_DIDENTERBACKGROUND, SDL_APP_DIDENTERBACKGROUND
  | SDL_APP_WILLENTERFOREGROUND, SDL_APP_WILLENTERFOREGROUND
  | SDL_APP_DIDENTERFOREGROUND, SDL_APP_DIDENTERFOREGROUND
  | SDL_RENDER_DEVICE_RESET, SDL_RENDER_DEVICE_RESET
  | SDL_WINDOWEVENT_MINIMIZED, SDL_WINDOWEVENT_MINIMIZED
  | SDL_WINDOWEVENT_RESTORED, SDL_WINDOWEVENT_RESTORED
  | SDL_KEYDOWN, SDL_KEYDOWN => true
  | _, _ => false
  end.

(** The two counting semaphores posted by the activity thread. *)
Inductive Sem : Type := Android_PauseSem | Android_ResumeSem.

(** [EGLContext] handles; [0] is the null handle. *)
Definition EGLContext : Type := Z.

(** Error codes of [EGL/egl.h]. *)
Definition EGL_BAD_ALLOC : Z := 0x3003.
Definition EGL_BAD_MATCH : Z := 0x3009.

(** [SDL_WindowData]: the fields of the driver data the file touches.
    [native_window] tells whether the [ANativeWindow*] is non-null. *)
Record SDL_WindowData : Type := mkWindowData {
  egl_context : EGLContext;
  backup_done : Z;
  native_window : bool
}.

Record SDL_Window : Type := mkWindow {
  window_w : Z;
  window_h : Z;
  driverdata : SDL_WindowData
}.

(** [SDL_VideoData]: the pause flags of the video device. *)
Record SDL_VideoData : Type := mkVideoData {
  isPaused : bool;
  isPausing : bool;
  pauseAudio : bool
}.

Record SDL_DisplayMode : Type := mkMode {
  mode_w : Z;
  mode_h : Z;
  refresh_rate : Z
}.

(** [display_modes] holds [num_display_modes] entries. *)
Record SDL_VideoDisplay : Type := mkDisplay {
  desktop_mode : SDL_DisplayMode;
  display_modes : list SDL_DisplayMode
}.

(** The [static] variables: [saved_swap_interval] at file level,
    [prev_surface_w], [prev_surface_h], [prev_rate] inside
    [android_egl_context_restore], [backup_context] inside
    [Android_PumpEvents_NonBlocking].  All start at [0]. *)
Record Statics : Type := mkStatics {
  saved_swap_interval : Z;
  prev_surface_w : Z;
  prev_surface_h : Z;
  prev_rate : Z;
  backup_context : bool
}.

(** What the GL layer remembers for the calling thread. *)
Record GLState : Type := mkGL {
  current_context : EGLContext;
  swap_interval : Z
}.

Record World : Type := mkWorld {
  videodata : SDL_VideoData;
  Android_Window : option SDL_Window;
  statics : Statics;
  gl : GLState;
  PauseSem : nat;
  ResumeSem : nat;
  event_queue : list SDL_EventType
}.

(** Answers of the platform to the queries made during one pump call. *)
Record Env : Type := mkEnv {
  SDL_IsVideoContextExternal : bool;
  SDL_IsTextInputActive : bool;
  aaudio_DetectBrokenPlayState : bool;
  MakeCurrent_ok : EGLContext -> bool;
  CreateContext_result : EGLContext;
  eglGetError_result : Z;
  ANativeWindow_getWidth : Z;
  ANativeWindow_getHeight : Z;
  ANativeWindow_getFormat : Z;
  SetSwapInterval_ok : Z -> bool;
  SDL_GetDisplayForWindow : option SDL_VideoDisplay
}.

(** The calls that leave the file, the stores to [videodata->isPaused],
    the entries into the two context functions and the return of a pump
    call, in program order.  A blocking wait is recorded twice: when it is
    called and when it returns. *)
Inductive Obs : Type :=
| CSemTryWait (s : Sem) (r : Z)
| CSemWait (s : Sem)
| SemWait_returned (s : Sem) (r : Z)
| CSemValue (s : Sem) (v : nat)
| CSendAppEvent (t : SDL_EventType)
| CSendWindowEvent (t : SDL_EventType)
| CPushEvent (t : SDL_EventType)
| CLockMutex
| CUnlockMutex
| CGL_MakeCurrent (ctx : EGLContext) (r : Z)
| CGL_CreateContext (ctx : EGLContext)
| CGL_GetCurrentContext (ctx : EGLContext)
| CGL_GetSwapInterval (i : Z)
| CGL_SetSwapInterval (i : Z) (r : Z)
| CeglGetError (code : Z)
| CAndroid_SetFormat (wanted got : Z)
| CAndroid_SetScreenResolution (surface_w surface_h device_w device_h rate : Z)
| CAndroid_SendResize
| CANDROIDAUDIO_PauseDevices
| CopenslES_PauseDevices
| Caaudio_PauseDevices
| CANDROIDAUDIO_ResumeDevices
| CopenslES_ResumeDevices
| Caaudio_ResumeDevices
| CAndroid_StartTextInput
| Store_isPaused (v : bool)
| Enter_context_backup
| Enter_context_restore
| Pump_return.

(** ** Field updates *)

Definition set_isPaused (b : bool) (w : World) : World :=
  mkWorld (mkVideoData b (isPausing (videodata w)) (pauseAudio (videodata w)))
          (Android_Window w) (statics w) (gl w) (PauseSem w) (ResumeSem w)
          (event_queue w).

Definition set_isPausing (b : bool) (w : World) : World :=
  mkWorld (mkVideoData (isPaused (videodata w)) b (pauseAudio (videodata w)))
          (Android_Window w) (statics w) (gl w) (PauseSem w) (ResumeSem w)
          (event_queue w).

Definition set_window (win : option SDL_Window) (w : World) : World :=
  mkWorld (videodata w) win (statics w) (gl w) (PauseSem w) (ResumeSem w)
          (event_queue w).

Definition set_statics (s : Statics) (w : World) : World :=
  mkWorld (videodata w) (Android_Window w) s (gl w) (PauseSem w) (ResumeSem w)
          (event_queue w).

Definition set_gl (g : GLState) (w : World) : World :=
  mkWorld (videodata w) (Android_Window w) (statics w) g (PauseSem w)
          (ResumeSem w) (event_queue w).

Definition set_PauseSem (n : nat) (w : World) : World :=
  mkWorld (videodata w) (Android_Window w) (statics w) (gl w) n (ResumeSem w)
          (event_queue w).

Definition set_ResumeSem (n : nat) (w : World) : World :=
  mkWorld (videodata w) (Android_Window w) (statics w) (gl w) (PauseSem w) n
          (event_queue w).

Definition set_event_queue (q : list SDL_EventType) (w : World) : World :=
  mkWorld (videodata w) (Android_Window w) (statics w) (gl w) (PauseSem w)
          (ResumeSem w) q.

Definition set_driverdata (d : SDL_WindowData) (w : World) : World :=
  match Android_Window w with
  | Some win => set_window (Some (mkWindow (window_w win) (window_h win) d)) w
  | None => w
  end.

Definition set_saved_swap_interval (i : Z) (s : Statics) : Statics :=
  mkStatics i (prev_surface_w s) (prev_surface_h s) (prev_rate s)
            (backup_context s).

Definition set_prev (sw sh rate : Z) (s : Statics) : Statics :=
  mkStatics (saved_swap_interval s) sw sh rate (backup_context s).

Definition set_backup_context (b : bool) (s : Statics) : Statics :=
  mkStatics (saved_swap_interval s) (prev_surface_w s) (prev_surface_h s)
            (prev_rate s) b.

(** ** The monad of the embedding: state and recorded calls *)

Definition M (A : Type) : Type := World -> A * World * list Obs.

Definition ret {A : Type} (a : A) : M A := fun w => (a, w, []).

Definition bind {A B : Type} (m : M A) (f : A -> M B) : M B :=
  fun w =>
    let '(a, w1, o1) := m w in
    let '(b, w2, o2) := f a w1 in
    (b, w2, o1 ++ o2).

Declare Scope pump_scope.
Delimit Scope pump_scope with pump.
Notation "x <- m ;; k" := (bind m (fun x => k))
  (at level 61, m at next level, right associativity) : pump_scope.
Notation "m ;; k" := (bind m (fun _ => k))
  (at level 61, right associativity) : pump_scope.
Open Scope pump_scope.

Definition get {A : Type} (f : World -> A) : M A := fun w => (f w, w, []).
Definition modify (f : World -> World) : M unit := fun w => (tt, f w, []).
Definition call (o : Obs) : M unit := fun w => (tt, w, [o]).
Definition when (b : bool) (m : M unit) : M unit := if b then m else ret tt.

Definition world_of {A : Type} (r : A * World * list Obs) : World := snd (fst r).
Definition out_of {A : Type} (r : A * World * list Obs) : list Obs := snd r.
Definition val_of {A : Type} (r : A * World * list Obs) : A := fst (fst r).

(** ** The platform calls the file makes

    None of these is defined in the file under study; each is given the
    behaviour of the counting signals, the event queue and the GL layer
    the pumps rely on. *)

Definition SDL_MUTEX_TIMEDOUT : Z := 1.

Definition sem_count (s : Sem) (w : World) : nat :=
  match s with
  | Android_PauseSem => PauseSem w
  | Android_ResumeSem => ResumeSem w
  end.

Definition set_sem (s : Sem) (n : nat) (w : World) : World :=
  match s with
  | Android_PauseSem => set_PauseSem n w
  | Android_ResumeSem => set_ResumeSem n w
  end.

(** Modelled from the spec: [SDL_SemTryWait], the non-blocking poll of a
    counting signal.  It takes one unit and returns [0] when the count is
    positive, and returns [SDL_MUTEX_TIMEDOUT] at once otherwise. *)
Definition SDL_SemTryWait (s : Sem) : M Z :=
  fun w =>
    match sem_count s w with
    | O => (SDL_MUTEX_TIMEDOUT, w, [CSemTryWait s SDL_MUTEX_TIMEDOUT])
    | S n => (0, set_sem s n w, [CSemTryWait s 0])
    end.

(** Modelled from the spec: [SDL_SemValue], the current count of a signal. *)
Definition SDL_SemValue (s : Sem) : M Z :=
  fun w => (Z.of_nat (sem_count s w), w, [CSemValue s (sem_count s w)]).

(** Modelled from the spec: [SDL_PeepEvents (NULL, 0, SDL_PEEKEVENT, type,
    type)], the number of queued events of one type, nothing removed.  The
    queue is taken to be active, so the count is never the error value. *)
Definition SDL_PeepEvents_count (t : SDL_EventType) (q : list SDL_EventType) : nat :=
  length (filter (SDL_EventType_eqb t) q).

(** Number of 'type' events in the event queue *)
Definition SDL_NumberOfEvents (t : SDL_EventType) : M Z :=
  fun w => (Z.of_nat (SDL_PeepEvents_count t (event_queue w)), w, []).

(** Modelled from the spec: [SDL_HasEvent], whether an event of the type is
    queued. *)
Definition SDL_HasEvent (t : SDL_EventType) : M bool :=
  fun w => (existsb (SDL_EventType_eqb t) (event_queue w), w, []).

Definition enqueue (t : SDL_EventType) (w : World) : World :=
  set_event_queue (event_queue w ++ [t]) w.

(** Modelled from the spec: the three ways the file pushes a typed event on
    the queue. *)
Definition SDL_SendAppEvent (t : SDL_EventType) : M unit :=
  fun w => (tt, enqueue t w, [CSendAppEvent t]).

Definition SDL_SendWindowEvent (t : SDL_EventType) : M unit :=
  fun w => (tt, enqueue t w, [CSendWindowEvent t]).

Definition SDL_PushEvent (t : SDL_EventType) : M unit :=
  fun w => (tt, enqueue t w, [CPushEvent t]).

(** Modelled from the spec: make-context-current.  The platform accepts or
    refuses the handle; a negative value reports the refusal. *)
Definition SDL_GL_MakeCurrent (e : Env) (ctx : EGLContext) : M Z :=
  fun w =>
    if MakeCurrent_ok e ctx
    then (0, set_gl (mkGL ctx (swap_interval (gl w))) w, [CGL_MakeCurrent ctx 0])
    else (-1, w, [CGL_MakeCurrent ctx (-1)]).

(** Modelled from the spec: create-context, get current context. *)
Definition SDL_GL_CreateContext (e : Env) : M EGLContext :=
  fun w => (CreateContext_result e, w, [CGL_CreateContext (CreateContext_result e)]).

Definition SDL_GL_GetCurrentContext : M EGLContext :=
  fun w => (current_context (gl w), w, [CGL_GetCurrentContext (current_context (gl w))]).

(** Modelled from the spec: get and set the swap interval. *)
Definition SDL_GL_GetSwapInterval : M Z :=
  fun w => (swap_interval (gl w), w, [CGL_GetSwapInterval (swap_interval (gl w))]).

Definition SDL_GL_SetSwapInterval (e : Env) (i : Z) : M Z :=
  fun w =>
    if SetSwapInterval_ok e i
    then (0, set_gl (mkGL (current_context (gl w)) i) w, [CGL_SetSwapInterval i 0])
    else (-1, w, [CGL_SetSwapInterval i (-1)]).

(** Modelled from the spec: get last error code. *)
Definition eglGetError (e : Env) : M Z :=
  fun w => (eglGetError_result e, w, [CeglGetError (eglGetError_result e)]).

Definition SDL_LockMutex : M unit := call CLockMutex.
Definition SDL_UnlockMutex : M unit := call CUnlockMutex.
Definition Android_SetFormat (wanted got : Z) : M unit :=
  call (CAndroid_SetFormat wanted got).
Definition Android_SetScreenResolution (sw sh dw dh rate : Z) : M unit :=
  call (CAndroid_SetScreenResolution sw sh dw dh rate).
Definition Android_SendResize : M unit := call CAndroid_SendResize.
Definition ANDROIDAUDIO_PauseDevices : M unit := call CANDROIDAUDIO_PauseDevices.
Definition openslES_PauseDevices : M unit := call CopenslES_PauseDevices.
Definition aaudio_PauseDevices : M unit := call Caaudio_PauseDevices.
Definition ANDROIDAUDIO_ResumeDevices : M unit := call CANDROIDAUDIO_ResumeDevices.
Definition openslES_ResumeDevices : M unit := call CopenslES_ResumeDevices.
Definition aaudio_ResumeDevices : M unit := call Caaudio_ResumeDevices.
Definition Android_StartTextInput : M unit := call CAndroid_StartTextInput.

(** ** [android_egl_context_restore] and [android_egl_context_backup]

    Both are only ever called with the global [Android_Window]. *)

(** The loop over [display->display_modes]. *)
Fixpoint scan_display_modes (modes : list SDL_DisplayMode) (max_rate : Z) : Z :=
  match modes with
  | [] => max_rate
  | m :: rest =>
      scan_display_modes rest
        (if refresh_rate m >? max_rate then refresh_rate m else max_rate)
  end.

(** The refresh rate the restore settles on. *)
Definition max_refresh_rate (display : option SDL_VideoDisplay) : Z :=
  let max_rate := 0 in
  let max_rate :=
    match display with
    | Some d =>
        let max_rate :=
          if refresh_rate (desktop_mode d) >? max_rate
          then refresh_rate (desktop_mode d) else max_rate in
        scan_display_modes (display_modes d) max_rate
    | None => max_rate
    end in
  if max_rate <=? 0 then 60 else max_rate.

(** The surface and device sizes: those of the native window when it is
    there and reports positive sizes, the window's own otherwise.  The
    result is (surface_w, surface_h, device_w, device_h). *)
Definition surface_geometry (e : Env) (win : SDL_Window) : Z * Z * Z * Z :=
  let surface_w := window_w win in
  let surface_h := window_h win in
  let device_w := surface_w in
  let device_h := surface_h in
  if native_window (driverdata win) then
    let nw := ANativeWindow_getWidth e in
    let nh := ANativeWindow_getHeight e in
    if (nw >? 0) && (nh >? 0)
    then (nw, nh, nw, nh)
    else (surface_w, surface_h, device_w, device_h)
  else (surface_w, surface_h, device_w, device_h).

(** The conversion of an [int] to [float]: IEEE 754 binary32 has a 24-bit
    significand, so an integer of more than 24 bits is rounded to a
    multiple of [ulp], to the nearest one and to the even one on a tie.
    Every [int] is in range, and the result is an integer. *)
Definition float_of_int (n : Z) : Z :=
  let a := Z.abs n in
  let k := Z.log2 a in
  if k <? 24 then n
  else
    let ulp := 2 ^ (k - 23) in
    let q := a / ulp in
    let r := a mod ulp in
    let q' := if 2 * r <? ulp then q
              else if ulp <? 2 * r then q + 1
                   else if Z.even q then q else q + 1 in
    Z.sgn n * (q' * ulp).

Arguments float_of_int : simpl never.

Definition need_update (surface_w surface_h max_rate : Z) (s : Statics) : bool :=
  negb (surface_w =? prev_surface_w s) || negb (surface_h =? prev_surface_h s)
  || negb (max_rate =? prev_rate s).

Definition set_egl_context (ctx : EGLContext) (w : World) : World :=
  match Android_Window w with
  | Some win =>
      set_driverdata (mkWindowData ctx (backup_done (driverdata win))
                                   (native_window (driverdata win))) w
  | None => w
  end.

Definition set_backup_done (v : Z) (w : World) : World :=
  match Android_Window w with
  | Some win =>
      set_driverdata (mkWindowData (egl_context (driverdata win)) v
                                   (native_window (driverdata win))) w
  | None => w
  end.

Definition android_egl_context_restore (e : Env) : M unit :=
  call Enter_context_restore ;;
  window <- get Android_Window ;;
  match window with
  | None => ret tt
  | Some win =>
      let data := driverdata win in
      r <- SDL_GL_MakeCurrent e (egl_context data) ;;
      when (r <? 0)
        (ctx <- SDL_GL_CreateContext e ;;
         modify (set_egl_context ctx) ;;
         SDL_GL_MakeCurrent e ctx ;;
         SDL_PushEvent SDL_RENDER_DEVICE_RESET) ;;
      egl_err <- eglGetError e ;;
      when ((egl_err =? EGL_BAD_ALLOC) || (egl_err =? EGL_BAD_MATCH))
        (SDL_PushEvent SDL_RENDER_DEVICE_RESET) ;;
      let '(surface_w, surface_h, device_w, device_h) := surface_geometry e win in
      let max_rate := max_refresh_rate (SDL_GetDisplayForWindow e) in
      when (native_window data)
        (let fmt := ANativeWindow_getFormat e in
         when (fmt >? 0) (Android_SetFormat fmt fmt)) ;;
      s <- get statics ;;
      when (need_update surface_w surface_h max_rate s)
        (Android_SetScreenResolution surface_w surface_h device_w device_h
           (float_of_int max_rate) ;;
         Android_SendResize ;;
         modify (fun w => set_statics (set_prev surface_w surface_h max_rate (statics w)) w)) ;;
      saved <- get (fun w => saved_swap_interval (statics w)) ;;
      (if negb (saved =? 0)
       then r <- SDL_GL_SetSwapInterval e saved ;;
            when (r <? 0) (SDL_GL_SetSwapInterval e 0 ;; ret tt)
       else SDL_GL_SetSwapInterval e 0 ;; ret tt) ;;
      modify (set_backup_done 0)
  end.

Definition android_egl_context_backup (e : Env) : M unit :=
  call Enter_context_backup ;;
  window <- get Android_Window ;;
  match window with
  | None => ret tt
  | Some win =>
      ctx <- SDL_GL_GetCurrentContext ;;
      modify (set_egl_context ctx) ;;
      SDL_GL_MakeCurrent e 0 ;;
      modify (set_backup_done 1)
  end.

(** ** The two pumps *)

(** Where the main thread is: in application code between two pump calls,
    or suspended inside [SDL_SemWait (Android_ResumeSem)] in the middle of a
    Blocking pump call, whose [isContextExternal] local and platform
    answers are kept for the rest of the call. *)
Inductive Thread : Type :=
| AppCode
| InSemWait (e : Env) (isContextExternal : bool).

(** Modelled from the spec: [SDL_SemWait], the blocking wait on a counting
    signal.  With a positive count it takes one unit and returns [0];
    with a zero count the caller is suspended ([None]) until the signal is
    raised. *)
Definition SDL_SemWait (s : Sem) : M (option Z) :=
  fun w =>
    match sem_count s w with
    | O => (None, w, [])
    | S n => (Some 0, set_sem s n w, [SemWait_returned s 0])
    end.

Definition set_saved (i : Z) (w : World) : World :=
  set_statics (set_saved_swap_interval i (statics w)) w.

Definition set_backup_flag (b : bool) (w : World) : World :=
  set_statics (set_backup_context b (statics w)) w.

(** The tail shared by both pumps. *)
Definition detect_broken_play_state (e : Env) : M unit :=
  when (aaudio_DetectBrokenPlayState e)
    (aaudio_PauseDevices ;; aaudio_ResumeDevices).

(** Blocking pump, [isPaused] set: from the top to the call of
    [SDL_SemWait]. *)
Definition Blocking_before_wait (e : Env) : M bool :=
  let isContextExternal := SDL_IsVideoContextExternal e in
  when (negb isContextExternal)
    (SDL_LockMutex ;; android_egl_context_backup e ;; SDL_UnlockMutex) ;;
  ANDROIDAUDIO_PauseDevices ;;
  openslES_PauseDevices ;;
  aaudio_PauseDevices ;;
  call (CSemWait Android_ResumeSem) ;;
  ret isContextExternal.

(** Blocking pump: the body of [if (SDL_SemWait (Android_ResumeSem) == 0)]. *)
Definition Blocking_resumed (e : Env) (isContextExternal : bool) : M unit :=
  modify (set_isPaused false) ;; call (Store_isPaused false) ;;
  SDL_SendAppEvent SDL_APP_WILLENTERFOREGROUND ;;
  SDL_SendAppEvent SDL_APP_DIDENTERFOREGROUND ;;
  SDL_SendWindowEvent SDL_WINDOWEVENT_RESTORED ;;
  ANDROIDAUDIO_ResumeDevices ;;
  openslES_ResumeDevices ;;
  aaudio_ResumeDevices ;;
  quit <- SDL_HasEvent SDL_QUIT ;;
  when (negb isContextExternal && negb quit)
    (SDL_LockMutex ;; android_egl_context_restore e ;; SDL_UnlockMutex) ;;
  when (SDL_IsTextInputActive e) Android_StartTextInput.

(** Blocking pump: the wait itself and everything after it. *)
Definition Blocking_from_wait (e : Env) (isContextExternal : bool) : M Thread :=
  r <- SDL_SemWait Android_ResumeSem ;;
  match r with
  | None => ret (InSemWait e isContextExternal)
  | Some r =>
      when (r =? 0) (Blocking_resumed e isContextExternal) ;;
      detect_broken_play_state e ;;
      call Pump_return ;;
      ret AppCode
  end.

(** Blocking pump, [isPaused] clear. *)
Definition Blocking_not_paused : M unit :=
  pausing <- get (fun w => isPausing (videodata w)) ;;
  signaled <- (if pausing then ret true
               else r <- SDL_SemTryWait Android_PauseSem ;; ret (r =? 0)) ;;
  when signaled
    (pausing <- get (fun w => isPausing (videodata w)) ;;
     when (negb pausing)
       (i <- SDL_GL_GetSwapInterval ;;
        modify (set_saved i) ;;
        SDL_SendWindowEvent SDL_WINDOWEVENT_MINIMIZED ;;
        SDL_SendAppEvent SDL_APP_WILLENTERBACKGROUND ;;
        SDL_SendAppEvent SDL_APP_DIDENTERBACKGROUND) ;;
     n <- SDL_NumberOfEvents SDL_APP_DIDENTERBACKGROUND ;;
     v <- SDL_SemValue Android_PauseSem ;;
     if n >? v
     then modify (set_isPausing true)
     else modify (set_isPausing false) ;;
          modify (set_isPaused true) ;; call (Store_isPaused true)).

Definition Android_PumpEvents_Blocking (e : Env) : M Thread :=
  paused <- get (fun w => isPaused (videodata w)) ;;
  if paused
  then isContextExternal <- Blocking_before_wait e ;;
       Blocking_from_wait e isContextExternal
  else Blocking_not_paused ;;
       detect_broken_play_state e ;;
       call Pump_return ;;
       ret AppCode.

Definition Android_PumpEvents_NonBlocking (e : Env) : M unit :=
  paused <- get (fun w => isPaused (videodata w)) ;;
  (if paused
   then
     let isContextExternal := SDL_IsVideoContextExternal e in
     flag <- get (fun w => backup_context (statics w)) ;;
     when flag
       (when (negb isContextExternal)
          (SDL_LockMutex ;; android_egl_context_backup e ;; SDL_UnlockMutex) ;;
        audio <- get (fun w => pauseAudio (videodata w)) ;;
        when audio
          (ANDROIDAUDIO_PauseDevices ;;
           openslES_PauseDevices ;;
           aaudio_PauseDevices) ;;
        modify (set_backup_flag false)) ;;
     r <- SDL_SemTryWait Android_ResumeSem ;;
     when (r =? 0)
       (modify (set_isPaused false) ;; call (Store_isPaused false) ;;
        SDL_SendAppEvent SDL_APP_WILLENTERFOREGROUND ;;
        SDL_SendAppEvent SDL_APP_DIDENTERFOREGROUND ;;
        SDL_SendWindowEvent SDL_WINDOWEVENT_RESTORED ;;
        audio <- get (fun w => pauseAudio (videodata w)) ;;
        when audio
          (ANDROIDAUDIO_ResumeDevices ;;
           openslES_ResumeDevices ;;
           aaudio_ResumeDevices) ;;
        quit <- SDL_HasEvent SDL_QUIT ;;
        when (negb isContextExternal && negb quit)
          (SDL_LockMutex ;; android_egl_context_restore e ;; SDL_UnlockMutex) ;;
        when (SDL_IsTextInputActive e) Android_StartTextInput)
   else
     pausing <- get (fun w => isPausing (videodata w)) ;;
     signaled <- (if pausing then ret true
                  else r <- SDL_SemTryWait Android_PauseSem ;; ret (r =? 0)) ;;
     when signaled
       (pausing <- get (fun w => isPausing (videodata w)) ;;
        when (negb pausing)
          (SDL_SendWindowEvent SDL_WINDOWEVENT_MINIMIZED ;;
           SDL_SendAppEvent SDL_APP_WILLENTERBACKGROUND ;;
           SDL_SendAppEvent SDL_APP_DIDENTERBACKGROUND) ;;
        n <- SDL_NumberOfEvents SDL_APP_DIDENTERBACKGROUND ;;
        v <- SDL_SemValue Android_PauseSem ;;
        if n >? v
        then modify (set_isPausing true)
        else modify (set_isPausing false) ;;
             modify (set_isPaused true) ;; call (Store_isPaused true) ;;
             modify (set_backup_flag true))) ;;
  detect_broken_play_state e ;;
  call Pump_return.

(** ** The machine: host thread, application and pump interleaved *)

Inductive Variant : Type := Blocking | NonBlocking.

Record Machine : Type := mkMachine {
  world : World;
  thread : Thread
}.

(** [nativePause] and [nativeResume] are the activity thread posting a
    semaphore; [QueueEvent] is any other subsystem pushing an event;
    [AppPollEvent] is the application taking the head of the queue;
    [AppSetSwapInterval] is the application changing the swap interval;
    [PumpEvents] is the main loop calling the installed pump; [Wake] is the
    scheduler letting a thread suspended in [SDL_SemWait] try again. *)
Inductive Action : Type :=
| nativePause
| nativeResume
| QueueEvent (t : SDL_EventType)
| AppPollEvent
| AppSetSwapInterval (i : Z)
| PumpEvents (e : Env)
| Wake.

Definition app_acts (f : World -> World) (m : Machine) : Machine * list Obs :=
  match thread m with
  | AppCode => (mkMachine (f (world m)) AppCode, [])
  | InSemWait _ _ => (m, [])
  end.

Definition step (v : Variant) (m : Machine) (a : Action) : Machine * list Obs :=
  match a with
  | nativePause =>
      (mkMachine (set_PauseSem (S (PauseSem (world m))) (world m)) (thread m), [])
  | nativeResume =>
      (mkMachine (set_ResumeSem (S (ResumeSem (world m))) (world m)) (thread m), [])
  | QueueEvent t => (mkMachine (enqueue t (world m)) (thread m), [])
  | AppPollEvent => app_acts (fun w => set_event_queue (tl (event_queue w)) w) m
  | AppSetSwapInterval i =>
      app_acts (fun w => set_gl (mkGL (current_context (gl w)) i) w) m
  | PumpEvents e =>
      match thread m with
      | AppCode =>
          match v with
          | Blocking =>
              let '(t, w, o) := Android_PumpEvents_Blocking e (world m) in
              (mkMachine w t, o)
          | NonBlocking =>
              let '(_, w, o) := Android_PumpEvents_NonBlocking e (world m) in
              (mkMachine w AppCode, o)
          end
      | InSemWait _ _ => (m, [])
      end
  | Wake =>
      match thread m with
      | AppCode => (m, [])
      | InSemWait e isContextExternal =>
          let '(t, w, o) := Blocking_from_wait e isContextExternal (world m) in
          (mkMachine w t, o)
      end
  end.

Fixpoint run (v : Variant) (m : Machine) (acts : list Action) : Machine * list Obs :=
  match acts with
  | [] => (m, [])
  | a :: rest =>
      let '(m1, o1) := step v m a in
      let '(m2, o2) := run v m1 rest in
      (m2, o1 ++ o2)
  end.

(** A world at start-up: flags clear, statics zero, nothing queued. *)
Definition boot (win : option SDL_Window) (audio : bool) (g : GLState) : World :=
  mkWorld (mkVideoData false false audio) win (mkStatics 0 0 0 0 false) g
          O O [].

(** ** Reading the output of a run *)

Definition is_resize (o : Obs) : bool :=
  match o with CAndroid_SendResize => true | _ => false end.

Definition is_set_resolution (o : Obs) : bool :=
  match o with CAndroid_SetScreenResolution _ _ _ _ _ => true | _ => false end.

Definition is_device_reset (o : Obs) : bool :=
  match o with CPushEvent SDL_RENDER_DEVICE_RESET => true | _ => false end.

Definition is_create_context (o : Obs) : bool :=
  match o with CGL_CreateContext _ => true | _ => false end.

Definition is_did_enter_background (o : Obs) : bool :=
  match o with CSendAppEvent SDL_APP_DIDENTERBACKGROUND => true | _ => false end.

Definition is_did_enter_foreground (o : Obs) : bool :=
  match o with CSendAppEvent SDL_APP_DIDENTERFOREGROUND => true | _ => false end.

(** The store [videodata->isPaused = 1]: the pause is committed. *)
Definition is_pause_commit (o : Obs) : bool :=
  match o with Store_isPaused true => true | _ => false end.

(** The store [videodata->isPaused = 0]: the resume is committed. *)
Definition is_resume_commit (o : Obs) : bool :=
  match o with Store_isPaused false => true | _ => false end.

Definition is_backup (o : Obs) : bool :=
  match o with Enter_context_backup => true | _ => false end.

Definition is_restore (o : Obs) : bool :=
  match o with Enter_context_restore => true | _ => false end.

Definition is_pump_return (o : Obs) : bool :=
  match o with Pump_return => true | _ => false end.

(** [SDL_SemWait (Android_ResumeSem)] came back with [0]: a Resume signal
    was observed by a blocking wait. *)
Definition is_resume_wait_done (o : Obs) : bool :=
  match o with SemWait_returned Android_ResumeSem 0 => true | _ => false end.

(** A blocking wait: its call or its return. *)
Definition is_blocking_wait (o : Obs) : bool :=
  match o with CSemWait _ | SemWait_returned _ _ => true | _ => false end.

Definition count (p : Obs -> bool) (l : list Obs) : nat := length (filter p l).

(** No [use] without a [grant] somewhere before it. *)
Definition never_before (use grant : Obs -> bool) (l : list Obs) : Prop :=
  forall l1 x l2,
    l = l1 ++ x :: l2 -> use x = true ->
    exists g, In g l1 /\ grant g = true.

(** No two [use]s without a [grant] between them. *)
Definition never_twice (use grant : Obs -> bool) (l : list Obs) : Prop :=
  forall l1 x l2 y l3,
    l = l1 ++ x :: l2 ++ y :: l3 -> use x = true -> use y = true ->
    exists g, In g l2 /\ grant g = true.

(** [emits P m]: whatever the state, every recorded call of [m]
    satisfies [P]. *)
Definition emits (P : Obs -> Prop) {A : Type} (m : M A) : Prop :=
  forall w, Forall P (out_of (m w)).

(** The geometry triple a restore compares with its memo. *)
Definition restore_triple (e : Env) (win : SDL_Window) : Z * Z * Z :=
  let '(surface_w, surface_h, _, _) := surface_geometry e win in
  (surface_w, surface_h, max_refresh_rate (SDL_GetDisplayForWindow e)).

Definition memo (w : World) : Z * Z * Z :=
  (prev_surface_w (statics w), prev_surface_h (statics w), prev_rate (statics w)).

(** The device size a restore pushes is the surface size. *)
Definition same_device_size (o : Obs) : Prop :=
  match o with
  | CAndroid_SetScreenResolution sw sh dw dh _ => dw = sw /\ dh = sh
  | _ => True
  end.

Definition pushes_rate (rate : Z) (o : Obs) : Prop :=
  match o with
  | CAndroid_SetScreenResolution _ _ _ _ r => r = rate
  | _ => True
  end.

(** The rates a display reports: its desktop mode first, then its modes. *)
Definition reported_rates (display : option SDL_VideoDisplay) : list Z :=
  match display with
  | Some d => refresh_rate (desktop_mode d) :: map refresh_rate (display_modes d)
  | None => []
  end.

(** ** The lifecycle protocol

    The order in which a run may announce the background, commit the
    pause, back the context up, commit the resume, announce the foreground
    and restore the context.  [monitor] reads an output and fails on the
    first call that is out of order. *)

Inductive Phase : Type :=
| PRunning      (* in the foreground, nothing pending *)
| PAnnounced    (* DidEnterBackground sent, pause not yet committed *)
| PCommitted    (* isPaused stored, context not backed up *)
| PBackedUp     (* isPaused stored, context backed up *)
| PResuming     (* isPaused cleared, DidEnterForeground not yet sent *)
| PForeground.  (* DidEnterForeground sent, restore may follow *)

Definition protocol (p : Phase) (o : Obs) : option Phase :=
  if is_did_enter_background o then
    match p with PRunning | PForeground => Some PAnnounced | _ => None end
  else if is_pause_commit o then
    match p with PAnnounced => Some PCommitted | _ => None end
  else if is_backup o then
    match p with PCommitted => Some PBackedUp | _ => None end
  else if is_resume_commit o then
    match p with PCommitted | PBackedUp => Some PResuming | _ => None end
  else if is_did_enter_foreground o then
    match p with PResuming => Some PForeground | _ => None end
  else if is_restore o then
    match p with PForeground => Some PRunning | _ => None end
  else Some p.

Fixpoint monitor {S : Type} (delta : S -> Obs -> option S) (s : S) (l : list Obs)
  : option S :=
  match l with
  | [] => Some s
  | o :: rest =>
      match delta s o with
      | Some s' => monitor delta s' rest
      | None => None
      end
  end.

(** What the flags of a machine look like in each phase, between two
    actions. *)
Definition phase_inv (v : Variant) (m : Machine) (p : Phase) : Prop :=
  let vd := videodata (world m) in
  match p with
  | PRunning | PForeground =>
      isPaused vd = false /\ isPausing vd = false /\ thread m = AppCode
  | PAnnounced =>
      isPaused vd = false /\ isPausing vd = true /\ thread m = AppCode
  | PCommitted =>
      isPaused vd = true /\ isPausing vd = false
      /\ (v = NonBlocking -> thread m = AppCode)
  | PBackedUp =>
      isPaused vd = true /\ isPausing vd = false
      /\ match v with
         | Blocking => thread m <> AppCode
         | NonBlocking =>
             thread m = AppCode /\ backup_context (statics (world m)) = false
         end
  | PResuming => False
  end.

(** ** Sample data *)

Definition quiet_env : Env :=
  mkEnv false false false (fun _ => true) 7 0x3000 1080 1920 4 (fun _ => true)
        (Some (mkDisplay (mkMode 1080 1920 60) [mkMode 1080 1920 90])).

Definition sample_window : SDL_Window :=
  mkWindow 1080 1920 (mkWindowData 5 0 true).

Definition sample_world : World :=
  boot (Some sample_window) true (mkGL 5 1).

(** ** What the two context functions leave alone *)

(** The calls a restore makes after it is entered. *)
Definition restore_body (o : Obs) : Prop :=
  match o with
  | CGL_MakeCurrent _ _ | CGL_CreateContext _ | CeglGetError _
  | CPushEvent SDL_RENDER_DEVICE_RESET
  | CAndroid_SetFormat _ _ | CAndroid_SetScreenResolution _ _ _ _ _
  | CAndroid_SendResize | CGL_SetSwapInterval _ _ => True
  | _ => False
  end.

(** The calls a backup makes after it is entered. *)
Definition backup_body (o : Obs) : Prop :=
  match o with
  | CGL_GetCurrentContext _ | CGL_MakeCurrent _ _ => True
  | _ => False
  end.

(** A restore keeps the pause flags, the semaphores, the saved swap
    interval and the backup flag, and only adds device-reset events to the
    queue. *)
Definition restore_frame (w w' : World) : Prop :=
  videodata w' = videodata w
  /\ PauseSem w' = PauseSem w
  /\ ResumeSem w' = ResumeSem w
  /\ saved_swap_interval (statics w') = saved_swap_interval (statics w)
  /\ backup_context (statics w') = backup_context (statics w)
  /\ exists k, event_queue w' = event_queue w ++ repeat SDL_RENDER_DEVICE_RESET k.

(** A backup keeps everything but the window data and the GL state. *)
Definition backup_frame (w w' : World) : Prop :=
  videodata w' = videodata w
  /\ PauseSem w' = PauseSem w
  /\ ResumeSem w' = ResumeSem w
  /\ statics w' = statics w
  /\ event_queue w' = event_queue w.

(** ** Vocabulary of the pause decision *)

(** A pause signal has been observed: either an earlier call left
    [isPausing] set, or the poll of [Android_PauseSem] will succeed. *)
Definition pause_observed (w : World) : Prop :=
  isPausing (videodata w) = true \/ (0 < PauseSem w)%nat.

(** The two sides of the comparison that decides the commitment, read in
    the state the call leaves: nothing touches the queue or the semaphore
    between the comparison and the return. *)
Definition queued_background_events (w : World) : Z :=
  Z.of_nat (SDL_PeepEvents_count SDL_APP_DIDENTERBACKGROUND (event_queue w)).

Definition pause_signal_count (w : World) : Z := Z.of_nat (PauseSem w).

(** The statement that a pump call never returns between the commitment
    of a pause and the observation of a Resume signal. *)
Definition returns_only_after_resume (l : list Obs) : Prop :=
  forall l1 l2 l3,
    l = l1 ++ Store_isPaused true :: l2 ++ Pump_return :: l3 ->
    exists g, In g l2 /\ is_resume_wait_done g = true.

(** A full cycle of actions: pause, pump until committed, resume, pump. *)
Definition sample_cycle : list Action :=
  [nativePause; PumpEvents quiet_env; AppPollEvent; AppPollEvent; AppPollEvent;
   PumpEvents quiet_env; PumpEvents quiet_env; nativeResume; Wake;
   PumpEvents quiet_env].

(** The sample world with the pause already committed. *)
Definition paused_world : World := set_isPaused true sample_world.

(** Pause, first pump call (announces), the application drains the three
    events, second pump call (commits). *)
Definition pause_and_commit : list Action :=
  [nativePause; PumpEvents quiet_env; AppPollEvent; AppPollEvent; AppPollEvent;
   PumpEvents quiet_env].

Definition is_get_swap_interval (o : Obs) : bool :=
  match o with CGL_GetSwapInterval _ => true | _ => false end.

(** The [EGLContext] stored in the window data, if there is a window. *)
Definition saved_context (w : World) : option EGLContext :=
  option_map (fun win => egl_context (driverdata win)) (Android_Window w).

(** The restore's second test: did [eglGetError] report [EGL_BAD_ALLOC] or
    [EGL_BAD_MATCH]? *)
Definition egl_error_is_bad (e : Env) : bool :=
  (eglGetError_result e =? EGL_BAD_ALLOC) || (eglGetError_result e =? EGL_BAD_MATCH).

(** The statement that a restore whose first [SDL_GL_MakeCurrent] fails
    pushes exactly one device reset. *)
Definition one_reset_when_lost (e : Env) (w : World) : Prop :=
  forall win,
    Android_Window w = Some win ->
    MakeCurrent_ok e (egl_context (driverdata win)) = false ->
    count is_device_reset (out_of (android_egl_context_restore e w)) = 1%nat.

(** A platform on which the saved context is lost and the error query then
    reports [EGL_BAD_ALLOC]. *)
Definition lost_context_env : Env :=
  mkEnv false false false (fun ctx => ctx =? 7) 7 EGL_BAD_ALLOC 1080 1920 4
        (fun _ => true)
        (Some (mkDisplay (mkMode 1080 1920 60) [mkMode 1080 1920 90])).

(** A display whose modes all report rate 0. *)
Definition silent_display : SDL_VideoDisplay :=
  mkDisplay (mkMode 1080 1920 0) [mkMode 1080 1920 0; mkMode 720 1280 0].

(** Pause, commit, back up, resume and restore under the NonBlocking pump. *)
Definition nonblocking_cycle : list Action :=
  [nativePause; PumpEvents quiet_env; AppPollEvent; AppPollEvent; AppPollEvent;
   PumpEvents quiet_env; PumpEvents quiet_env; nativeResume; PumpEvents quiet_env].

(** Two full cycles in a row, the application draining the queue in
    between. *)
Definition two_cycles : list Action :=
  sample_cycle
  ++ [nativePause; PumpEvents quiet_env;
      AppPollEvent; AppPollEvent; AppPollEvent;
      AppPollEvent; AppPollEvent; AppPollEvent;
      PumpEvents quiet_env; PumpEvents quiet_env; nativeResume; Wake;
      PumpEvents quiet_env].

(** ** What the restore pushes, as first stated *)

Definition is_set_format (o : Obs) : bool :=
  match o with CAndroid_SetFormat _ _ => true | _ => false end.

(** The sample world after one restore: the memo holds its geometry. *)
Definition restored_world : World :=
  world_of (android_egl_context_restore quiet_env sample_world).

(** The statement that a restore whose triple equals the memo pushes
    neither format nor resolution and sends no resize. *)
Definition pushes_nothing_when_unchanged (e : Env) (w : World) : Prop :=
  forall win,
    Android_Window w = Some win ->
    restore_triple e win = memo w ->
    count is_set_format (out_of (android_egl_context_restore e w)) = 0%nat
    /\ count is_set_resolution (out_of (android_egl_context_restore e w)) = 0%nat
    /\ count is_resize (out_of (android_egl_context_restore e w)) = 0%nat.

(** The statement that two consecutive restores with identical geometry
    send exactly one resize notification. *)
Definition two_restores_one_resize (e : Env) (w : World) : Prop :=
  forall win win2,
    Android_Window w = Some win ->
    Android_Window (world_of (android_egl_context_restore e w)) = Some win2 ->
    restore_triple e win2 = restore_triple e win ->
    count is_resize
      (out_of (android_egl_context_restore e w)
       ++ out_of (android_egl_context_restore e
                    (world_of (android_egl_context_restore e w))))
    = 1%nat.

(** The statement that the rate a restore pushes is the maximum itself. *)
Definition pushes_the_maximum (e : Env) (w : World) : Prop :=
  Forall (pushes_rate (max_refresh_rate (SDL_GetDisplayForWindow e)))
         (out_of (android_egl_context_restore e w)).

(** A display with a mode whose rate single precision cannot hold. *)
Definition fast_display_env : Env :=
  mkEnv false false false (fun _ => true) 7 0x3000 1080 1920 4 (fun _ => true)
        (Some (mkDisplay (mkMode 1080 1920 60) [mkMode 1080 1920 16777217])).

(** ** Further vocabulary *)

(** The [backup_done] mark of the window data, if there is a window. *)
Definition window_backup_done (w : World) : option Z :=
  option_map (fun win => backup_done (driverdata win)) (Android_Window w).

(** The rate of a pushed resolution is positive. *)
Definition positive_rate (o : Obs) : Prop :=
  match o with
  | CAndroid_SetScreenResolution _ _ _ _ r => 0 < r
  | _ => True
  end.

(** The same display with its modes listed in another order. *)
Definition with_modes (d : SDL_VideoDisplay) (modes : list SDL_DisplayMode)
  : SDL_VideoDisplay :=
  mkDisplay (desktop_mode d) modes.

Definition is_start_text_input (o : Obs) : bool :=
  match o with CAndroid_StartTextInput => true | _ => false end.

(** What an idle call records: the failed poll, the corrective audio cycle
    if the detector fires, the return. *)
Definition idle_output (e : Env) : list Obs :=
  CSemTryWait Android_PauseSem SDL_MUTEX_TIMEDOUT
  :: (if aaudio_DetectBrokenPlayState e
      then [Caaudio_PauseDevices; Caaudio_ResumeDevices] else [])
  ++ [Pump_return].

(** The three events that announce the background, in the order sent. *)
Definition background_announcement : list SDL_EventType :=
  [SDL_WINDOWEVENT_MINIMIZED; SDL_APP_WILLENTERBACKGROUND;
   SDL_APP_DIDENTERBACKGROUND].

(** The three events that announce the foreground, in the order sent. *)
Definition foreground_announcement : list SDL_EventType :=
  [SDL_APP_WILLENTERFOREGROUND; SDL_APP_DIDENTERFOREGROUND;
   SDL_WINDOWEVENT_RESTORED].

(** Whether a quit event is queued. *)
Definition quit_pending (w : World) : bool :=
  existsb (SDL_EventType_eqb SDL_QUIT) (event_queue w).

(** Whether a paused call of the given pump backs the context up. *)
Definition backs_up (v : Variant) (e : Env) (w : World) : bool :=
  isPaused (videodata w) && negb (SDL_IsVideoContextExternal e)
  && match v with
     | Blocking => true
     | NonBlocking => backup_context (statics w)
     end.

(** ** The activity mutex *)

(** Calls that touch the GL context: the two context functions and the
    platform calls that read, create or bind a context. *)
Definition is_context_call (o : Obs) : bool :=
  match o with
  | Enter_context_backup | Enter_context_restore
  | CGL_MakeCurrent _ _ | CGL_CreateContext _ | CGL_GetCurrentContext _ => true
  | _ => false
  end.

(** Points at which the mutex must be free: taking it, the blocking wait,
    the return of the pump. *)
Definition needs_mutex_free (o : Obs) : bool :=
  match o with
  | CLockMutex | CSemWait _ | SemWait_returned _ _ | Pump_return => true
  | _ => false
  end.

(** Whether [Android_ActivityMutex] is held after the calls of [l], given
    whether it was before. *)
Fixpoint mutex_held (held : bool) (l : list Obs) : bool :=
  match l with
  | [] => held
  | CLockMutex :: rest => mutex_held true rest
  | CUnlockMutex :: rest => mutex_held false rest
  | _ :: rest => mutex_held held rest
  end.

(** The discipline as a monitor: it fails on a lock taken twice, an unlock
    without a lock, a context call outside the lock, and a wait or a
    return under the lock. *)
Definition mutex_discipline (held : bool) (o : Obs) : option bool :=
  match o with
  | CUnlockMutex => if held then Some false else None
  | _ =>
      if is_context_call o then (if held then Some held else None)
      else if needs_mutex_free o
           then (if held then None
                 else Some (match o with CLockMutex => true | _ => held end))
           else Some held
  end.

(** ** The swap interval a restore asks for *)

(** The interval most recently read with [SDL_GL_GetSwapInterval] in [l],
    or [saved] if none was. *)
Fixpoint last_swap_read (saved : Z) (l : list Obs) : Z :=
  match l with
  | [] => saved
  | CGL_GetSwapInterval i :: rest => last_swap_read i rest
  | _ :: rest => last_swap_read saved rest
  end.

Definition swap_provenance (saved : Z) (o : Obs) : option Z :=
  match o with
  | CGL_GetSwapInterval i => Some i
  | CGL_SetSwapInterval i _ => if (i =? saved) || (i =? 0) then Some saved else None
  | _ => Some saved
  end.

(** ** Pausing and resuming the audio devices *)

Definition is_audio_pause (o : Obs) : bool :=
  match o with CANDROIDAUDIO_PauseDevices => true | _ => false end.

Definition is_audio_resume (o : Obs) : bool :=
  match o with CANDROIDAUDIO_ResumeDevices => true | _ => false end.

(** [first] and [second] take turns, [first] first. *)
Definition alternating (first second : Obs -> bool) (b : bool) (o : Obs)
  : option bool :=
  if first o then (if b then None else Some true)
  else if second o then (if b then Some false else None)
  else Some b.

(** Whether the audio devices are paused, read off the machine. *)
Definition audio_paused (v : Variant) (m : Machine) : bool :=
  match v with
  | Blocking => match thread m with AppCode => false | InSemWait _ _ => true end
  | NonBlocking =>
      isPaused (videodata (world m))
      && negb (backup_context (statics (world m)))
      && pauseAudio (videodata (world m))
  end.

(** A call into the ANDROIDAUDIO or OpenSL ES backend. *)
Definition is_gated_audio_call (o : Obs) : bool :=
  match o with
  | CANDROIDAUDIO_PauseDevices | CopenslES_PauseDevices
  | CANDROIDAUDIO_ResumeDevices | CopenslES_ResumeDevices => true
  | _ => false
  end.

(** A pushed pixel format is positive and is given as both the wanted and
    the obtained format. *)
Definition valid_format (o : Obs) : Prop :=
  match o with
  | CAndroid_SetFormat wanted got => 0 < wanted /\ got = wanted
  | _ => True
  end.

(** What a paused NonBlocking call records when there is nothing to do:
    the failed poll of the Resume semaphore, the corrective audio cycle if
    the detector fires, the return. *)
Definition paused_idle_output (e : Env) : list Obs :=
  CSemTryWait Android_ResumeSem SDL_MUTEX_TIMEDOUT
  :: (if aaudio_DetectBrokenPlayState e
      then [Caaudio_PauseDevices; Caaudio_ResumeDevices] else [])
  ++ [Pump_return].

(** ** Device resets *)

(** The number of device resets pushed since the restore was last entered
    in [l]; [None] while no restore has been entered. *)
Fixpoint resets_since_restore (s : option nat) (l : list Obs) : option nat :=
  match l with
  | [] => s
  | o :: rest =>
      resets_since_restore
        (if is_restore o then Some O
         else if is_device_reset o then option_map S s
         else s)
        rest
  end.

(** The monitor fails on a device reset outside a restore and on a third
    one inside. *)
Definition reset_budget (s : option nat) (o : Obs) : option (option nat) :=
  if is_restore o then Some (Some O)
  else if is_device_reset o then
         match s with
         | Some k => if (k <? 2)%nat then Some (Some (S k)) else None
         | None => None
         end
       else Some s.

(** Pause and commit, then resume on a platform that lost the context. *)
Definition lost_context_cycle : list Action :=
  pause_and_commit ++ [PumpEvents lost_context_env; nativeResume; Wake].
(** * Proofs *)

(** ** What a piece of pump code can emit: rules that follow the syntax *)
Section Emits.
Variable P : Obs -> Prop.

Lemma emits_ret {A : Type} (a : A) : emits P (ret a).
Proof. intros w. constructor. Qed.

Lemma emits_get {A : Type} (f : World -> A) : emits P (get f).
Proof. intros w. constructor. Qed.

Lemma emits_modify (f : World -> World) : emits P (modify f).
Proof. intros w. constructor. Qed.

Lemma emits_call (o : Obs) : P o -> emits P (call o).
Proof. intros H w. repeat constructor. exact H. Qed.

Lemma emits_bind {A B : Type} (m : M A) (f : A -> M B) :
  emits P m -> (forall a, emits P (f a)) -> emits P (bind m f).
Proof.
  intros Hm Hf w. unfold bind, out_of.
  specialize (Hm w). unfold out_of in Hm.
  destruct (m w) as [[a w1] o1]. specialize (Hf a w1). unfold out_of in Hf.
  destruct (f a w1) as [[b w2] o2]. cbn in *.
  apply Forall_app. split; assumption.
Qed.

Lemma emits_when (b : bool) (m : M unit) : emits P m -> emits P (when b m).
Proof. intros H. destruct b; [exact H | apply emits_ret]. Qed.

Lemma emits_push (t : SDL_EventType) : P (CPushEvent t) -> emits P (SDL_PushEvent t).
Proof. intros H w. repeat constructor. exact H. Qed.

Lemma emits_app_event (t : SDL_EventType) :
  P (CSendAppEvent t) -> emits P (SDL_SendAppEvent t).
Proof. intros H w. repeat constructor. exact H. Qed.

Lemma emits_window_event (t : SDL_EventType) :
  P (CSendWindowEvent t) -> emits P (SDL_SendWindowEvent t).
Proof. intros H w. repeat constructor. exact H. Qed.

Lemma emits_try_wait (s : Sem) :
  (forall r, P (CSemTryWait s r)) -> emits P (SDL_SemTryWait s).
Proof.
  intros H w. unfold SDL_SemTryWait, out_of.
  destruct (sem_count s w); repeat constructor; apply H.
Qed.

Lemma emits_sem_wait (s : Sem) :
  (forall r, P (SemWait_returned s r)) -> emits P (SDL_SemWait s).
Proof.
  intros H w. unfold SDL_SemWait, out_of.
  destruct (sem_count s w); repeat constructor; apply H.
Qed.

Lemma emits_sem_value (s : Sem) :
  (forall n, P (CSemValue s n)) -> emits P (SDL_SemValue s).
Proof. intros H w. repeat constructor. apply H. Qed.

Lemma emits_number_of_events (t : SDL_EventType) : emits P (SDL_NumberOfEvents t).
Proof. intros w. constructor. Qed.

Lemma emits_has_event (t : SDL_EventType) : emits P (SDL_HasEvent t).
Proof. intros w. constructor. Qed.

Lemma emits_make_current (e : Env) (ctx : EGLContext) :
  (forall r, P (CGL_MakeCurrent ctx r)) -> emits P (SDL_GL_MakeCurrent e ctx).
Proof.
  intros H w. unfold SDL_GL_MakeCurrent, out_of.
  destruct (MakeCurrent_ok e ctx); repeat constructor; apply H.
Qed.

Lemma emits_create_context (e : Env) :
  (forall c, P (CGL_CreateContext c)) -> emits P (SDL_GL_CreateContext e).
Proof. intros H w. repeat constructor. apply H. Qed.

Lemma emits_get_current_context :
  (forall c, P (CGL_GetCurrentContext c)) -> emits P SDL_GL_GetCurrentContext.
Proof. intros H w. repeat constructor. apply H. Qed.

Lemma emits_get_swap_interval :
  (forall i, P (CGL_GetSwapInterval i)) -> emits P SDL_GL_GetSwapInterval.
Proof. intros H w. repeat constructor. apply H. Qed.

Lemma emits_set_swap_interval (e : Env) (i : Z) :
  (forall r, P (CGL_SetSwapInterval i r)) -> emits P (SDL_GL_SetSwapInterval e i).
Proof.
  intros H w. unfold SDL_GL_SetSwapInterval, out_of.
  destruct (SetSwapInterval_ok e i); repeat constructor; apply H.
Qed.

Lemma emits_egl_error (e : Env) :
  (forall c, P (CeglGetError c)) -> emits P (eglGetError e).
Proof. intros H w. repeat constructor. apply H. Qed.
End Emits.

(** One step of a syntax-directed proof of [emits]. *)
Ltac emits_step :=
  match goal with
  | |- emits _ (bind _ _) => apply emits_bind; [ | intros ? ]
  | |- emits _ (ret _) => apply emits_ret
  | |- emits _ (get _) => apply emits_get
  | |- emits _ (modify _) => apply emits_modify
  | |- emits _ (when _ _) => apply emits_when
  | |- emits _ (call _) => apply emits_call
  | |- emits _ (SDL_PushEvent _) => apply emits_push
  | |- emits _ (SDL_SendAppEvent _) => apply emits_app_event
  | |- emits _ (SDL_SendWindowEvent _) => apply emits_window_event
  | |- emits _ (SDL_SemTryWait _) => apply emits_try_wait; intros ?
  | |- emits _ (SDL_SemWait _) => apply emits_sem_wait; intros ?
  | |- emits _ (SDL_SemValue _) => apply emits_sem_value; intros ?
  | |- emits _ (SDL_NumberOfEvents _) => apply emits_number_of_events
  | |- emits _ (SDL_HasEvent _) => apply emits_has_event
  | |- emits _ (SDL_GL_MakeCurrent _ _) => apply emits_make_current; intros ?
  | |- emits _ (SDL_GL_CreateContext _) => apply emits_create_context; intros ?
  | |- emits _ SDL_GL_GetCurrentContext => apply emits_get_current_context; intros ?
  | |- emits _ SDL_GL_GetSwapInterval => apply emits_get_swap_interval; intros ?
  | |- emits _ (SDL_GL_SetSwapInterval _ _) => apply emits_set_swap_interval; intros ?
  | |- emits _ (eglGetError _) => apply emits_egl_error; intros ?
  | |- emits _ (if ?b then _ else _) => destruct b
  | |- emits _ (match ?x with _ => _ end) => destruct x eqn:?
  | |- emits _ (let x := _ in _) => cbv zeta
  end.

Ltac unfold_calls :=
  unfold SDL_LockMutex, SDL_UnlockMutex,
    Android_SetFormat, Android_SetScreenResolution, Android_SendResize,
    ANDROIDAUDIO_PauseDevices, openslES_PauseDevices, aaudio_PauseDevices,
    ANDROIDAUDIO_ResumeDevices, openslES_ResumeDevices, aaudio_ResumeDevices,
    Android_StartTextInput.

Ltac unfold_monad :=
  unfold_calls;
  unfold bind, when, get, modify, call, ret,
    SDL_PushEvent, SDL_SendAppEvent, SDL_SendWindowEvent, eglGetError,
    SDL_GL_MakeCurrent, SDL_GL_CreateContext, SDL_GL_GetCurrentContext,
    SDL_GL_GetSwapInterval, SDL_GL_SetSwapInterval,
    SDL_HasEvent, SDL_NumberOfEvents, SDL_SemValue in *.

Ltac split_ifs :=
  repeat match goal with
         | |- context [if ?b then _ else _] =>
             destruct b eqn:?;
             cbn -[need_update surface_geometry max_refresh_rate]
         end.

(** Unfold a restore on an explicit world down to its leaves. *)
Ltac restore_cases e win :=
  unfold android_egl_context_restore; unfold_monad;
  cbn -[need_update surface_geometry max_refresh_rate];
  split_ifs;
  destruct (surface_geometry e win) as [[[?sw ?sh] ?dw] ?dh] eqn:?;
  cbn -[need_update surface_geometry max_refresh_rate];
  split_ifs.

Lemma surface_geometry_device e win sw sh dw dh :
  surface_geometry e win = (sw, sh, dw, dh) -> dw = sw /\ dh = sh.
Proof.
  unfold surface_geometry. intros H.
  destruct (native_window (driverdata win));
    [destruct ((ANativeWindow_getWidth e >? 0) && (ANativeWindow_getHeight e >? 0)) | ];
    inversion H; subst; split; reflexivity.
Qed.

Lemma restore_same_device_size e : emits same_device_size (android_egl_context_restore e).
Proof.
  unfold android_egl_context_restore. unfold_calls.
  repeat emits_step; try exact I.
  cbn. eapply surface_geometry_device. eassumption.
Qed.

Lemma restore_pushes_rate e :
  emits (pushes_rate (float_of_int (max_refresh_rate (SDL_GetDisplayForWindow e))))
        (android_egl_context_restore e).
Proof.
  unfold android_egl_context_restore. unfold_calls.
  repeat emits_step; try exact I. reflexivity.
Qed.

(** *** Facts about the maximum *)

Lemma scan_display_modes_ge modes : forall m, m <= scan_display_modes modes m.
Proof.
  induction modes as [|d modes IH]; intros m; cbn; [lia|].
  destruct (refresh_rate d >? m) eqn:E.
  - specialize (IH (refresh_rate d)). lia.
  - apply IH.
Qed.

Lemma scan_display_modes_upper modes :
  forall m r, In r (map refresh_rate modes) -> r <= scan_display_modes modes m.
Proof.
  induction modes as [|d modes IH]; intros m r Hin; cbn in *; [contradiction|].
  destruct Hin as [<- | Hin].
  - destruct (refresh_rate d >? m) eqn:E.
    + apply scan_display_modes_ge.
    + pose proof (scan_display_modes_ge modes m). lia.
  - apply IH. exact Hin.
Qed.

Lemma scan_display_modes_in modes :
  forall m, scan_display_modes modes m = m
            \/ In (scan_display_modes modes m) (map refresh_rate modes).
Proof.
  induction modes as [|d modes IH]; intros m; cbn; [left; reflexivity|].
  destruct (refresh_rate d >? m) eqn:E.
  - destruct (IH (refresh_rate d)) as [-> | H]; right; [left; reflexivity | right; exact H].
  - destruct (IH m) as [H | H]; [left; exact H | right; right; exact H].
Qed.

Lemma max_refresh_rate_upper display r :
  In r (reported_rates display) -> 0 < r -> r <= max_refresh_rate display.
Proof.
  unfold max_refresh_rate, reported_rates. destruct display as [d|]; [|contradiction].
  intros Hin Hpos.
  set (m0 := if refresh_rate (desktop_mode d) >? 0
             then refresh_rate (desktop_mode d) else 0).
  assert (Hr : r <= scan_display_modes (display_modes d) m0).
  { destruct Hin as [<- | Hin].
    - pose proof (scan_display_modes_ge (display_modes d) m0).
      subst m0. destruct (refresh_rate (desktop_mode d) >? 0) eqn:E; lia.
    - apply scan_display_modes_upper. exact Hin. }
  destruct (scan_display_modes (display_modes d) m0 <=? 0) eqn:E; lia.
Qed.

Lemma max_refresh_rate_cases display :
  (max_refresh_rate display = 60 /\ forall r, In r (reported_rates display) -> r <= 0)
  \/ (0 < max_refresh_rate display /\ In (max_refresh_rate display) (reported_rates display)).
Proof.
  unfold max_refresh_rate, reported_rates. destruct display as [d|].
  2:{ left. cbn. split; [reflexivity | intros r []]. }
  set (m0 := if refresh_rate (desktop_mode d) >? 0
             then refresh_rate (desktop_mode d) else 0).
  destruct (scan_display_modes (display_modes d) m0 <=? 0) eqn:E.
  - left. split; [reflexivity|]. intros r Hin.
    apply Z.leb_le in E.
    destruct Hin as [<- | Hin].
    + pose proof (scan_display_modes_ge (display_modes d) m0).
      subst m0. destruct (refresh_rate (desktop_mode d) >? 0) eqn:E'; lia.
    + pose proof (scan_display_modes_upper (display_modes d) m0 r Hin). lia.
  - right. apply Z.leb_gt in E. split; [exact E|].
    destruct (scan_display_modes_in (display_modes d) m0) as [H | H].
    + left. rewrite H in *. subst m0.
      destruct (refresh_rate (desktop_mode d) >? 0) eqn:E'; [reflexivity | lia].
    + right. exact H.
Qed.

(** *** Facts about the conversion to float *)

Lemma float_of_int_exact n : Z.abs n <= 2 ^ 24 -> float_of_int n = n.
Proof.
  intros H. unfold float_of_int.
  destruct (Z.eq_dec (Z.abs n) (2 ^ 24)) as [E | E].
  - destruct (Z.abs_eq_or_opp n) as [Hn | Hn]; rewrite Hn in E.
    + subst n. reflexivity.
    + assert (n = - 2 ^ 24) by lia. subst n. reflexivity.
  - assert (Hk : Z.log2 (Z.abs n) < 24).
    { destruct (Z.eq_dec (Z.abs n) 0) as [E0 | E0]; [rewrite E0; reflexivity|].
      apply Z.log2_lt_pow2; lia. }
    apply Z.ltb_lt in Hk. rewrite Hk. reflexivity.
Qed.

Lemma float_of_int_positive n : 0 < n -> 0 < float_of_int n.
Proof.
  intros Hn. unfold float_of_int. rewrite (Z.abs_eq n) by lia.
  destruct (Z.log2 n <? 24) eqn:Ek; [exact Hn|].
  apply Z.ltb_ge in Ek.
  set (ulp := 2 ^ (Z.log2 n - 23)).
  assert (Hulp : 0 < ulp) by (apply Z.pow_pos_nonneg; lia).
  assert (Hle : ulp <= n).
  { destruct (Z.log2_spec n Hn) as [Hlo _].
    assert (ulp <= 2 ^ Z.log2 n) by (apply Z.pow_le_mono_r; lia). lia. }
  assert (Hq : 1 <= n / ulp) by (apply Z.div_le_lower_bound; lia).
  rewrite Z.sgn_pos by exact Hn.
  destruct (2 * (n mod ulp) <? ulp); [nia|].
  destruct (ulp <? 2 * (n mod ulp)); [nia|].
  destruct (Z.even (n / ulp)); nia.
Qed.

(** The conversion at the first integers single precision cannot hold, and
    at the largest [int]. *)
Example float_of_int_values :
  float_of_int 60 = 60
  /\ float_of_int 16777216 = 16777216
  /\ float_of_int 16777217 = 16777216
  /\ float_of_int 16777218 = 16777218
  /\ float_of_int 16777219 = 16777220
  /\ float_of_int 2147483647 = 2147483648
  /\ float_of_int (-16777217) = -16777216.
Proof. repeat split; reflexivity. Qed.

(** ** Effects of the two context functions *)

Lemma restore_effect e w :
  exists w' rest,
    android_egl_context_restore e w = (tt, w', Enter_context_restore :: rest)
    /\ restore_frame w w' /\ Forall restore_body rest.
Proof.
  destruct w as [vd [win|] st g ps rs q].
  2:{ exists (mkWorld vd None st g ps rs q), []. repeat split; try constructor.
      exists O. cbn. rewrite app_nil_r. reflexivity. }
  restore_cases e win;
    (do 2 eexists; split; [reflexivity|]; split;
     [ unfold restore_frame; cbn; repeat split;
       first [ exists 0%nat; cbn; rewrite ?app_nil_r; reflexivity
             | exists 1%nat; cbn; reflexivity
             | exists 2%nat; cbn; rewrite <- ?app_assoc; reflexivity ]
     | repeat constructor ]).
Qed.

Lemma backup_effect e w :
  exists w' rest,
    android_egl_context_backup e w = (tt, w', Enter_context_backup :: rest)
    /\ backup_frame w w' /\ Forall backup_body rest.
Proof.
  destruct w as [vd [win|] st g ps rs q];
    unfold android_egl_context_backup; unfold_monad; cbn; split_ifs;
    do 2 eexists; (split; [reflexivity|]); split;
    try (unfold backup_frame; cbn; repeat split); repeat constructor.
Qed.

Lemma restore_emits (P : Obs -> Prop) e :
  P Enter_context_restore -> (forall o, restore_body o -> P o) ->
  emits P (android_egl_context_restore e).
Proof.
  intros H0 H w. destruct (restore_effect e w) as (w' & rest & -> & _ & Hr).
  unfold out_of; cbn. constructor; [exact H0|].
  eapply Forall_impl; [exact H | exact Hr].
Qed.

Lemma backup_emits (P : Obs -> Prop) e :
  P Enter_context_backup -> (forall o, backup_body o -> P o) ->
  emits P (android_egl_context_backup e).
Proof.
  intros H0 H w. destruct (backup_effect e w) as (w' & rest & -> & _ & Hr).
  unfold out_of; cbn. constructor; [exact H0|].
  eapply Forall_impl; [exact H | exact Hr].
Qed.

(** ** Monitors *)

Lemma monitor_app {S : Type} (delta : S -> Obs -> option S) l1 :
  forall s l2,
    monitor delta s (l1 ++ l2)
    = match monitor delta s l1 with
      | Some s' => monitor delta s' l2
      | None => None
      end.
Proof.
  induction l1 as [|o l1 IH]; intros s l2; cbn; [reflexivity|].
  destruct (delta s o); [apply IH | reflexivity].
Qed.

Lemma monitor_silent {S : Type} (delta : S -> Obs -> option S) l :
  Forall (fun o => forall s, delta s o = Some s) l ->
  forall s, monitor delta s l = Some s.
Proof.
  induction 1 as [|o l Ho _ IH]; intros s; cbn; [reflexivity|].
  rewrite Ho. apply IH.
Qed.

Lemma monitor_skip {S : Type} (delta : S -> Obs -> option S) l1 l2 s :
  Forall (fun o => forall s, delta s o = Some s) l1 ->
  monitor delta s (l1 ++ l2) = monitor delta s l2.
Proof.
  intros H. rewrite monitor_app, (monitor_silent delta l1 H). reflexivity.
Qed.

Lemma restore_body_protocol rest :
  Forall restore_body rest ->
  Forall (fun o => forall p, protocol p o = Some p) rest.
Proof.
  apply Forall_impl. intros o Ho p.
  destruct o; try contradiction; reflexivity.
Qed.

Lemma backup_body_protocol rest :
  Forall backup_body rest ->
  Forall (fun o => forall p, protocol p o = Some p) rest.
Proof.
  apply Forall_impl. intros o Ho p.
  destruct o; try contradiction; reflexivity.
Qed.

(** A run keeps whatever a step keeps. *)
Lemma run_monitor {S : Type} (delta : S -> Obs -> option S) v
      (I : Machine -> S -> Prop) :
  (forall m a s, I m s ->
     exists s', monitor delta s (snd (step v m a)) = Some s'
                /\ I (fst (step v m a)) s') ->
  forall acts m s, I m s ->
    exists s', monitor delta s (snd (run v m acts)) = Some s'
               /\ I (fst (run v m acts)) s'.
Proof.
  intros Hstep. induction acts as [|a acts IH]; intros m s HI; cbn.
  - exists s. split; [reflexivity | exact HI].
  - destruct (Hstep m a s HI) as (s1 & Hm1 & HI1).
    destruct (step v m a) as [m1 o1]. cbn in *.
    destruct (IH m1 s1 HI1) as (s2 & Hm2 & HI2).
    destruct (run v m1 acts) as [m2 o2]. cbn in *.
    exists s2. split; [|exact HI2].
    rewrite monitor_app, Hm1. exact Hm2.
Qed.

Lemma run_forall (P : Obs -> Prop) v :
  (forall m a, Forall P (snd (step v m a))) ->
  forall acts m, Forall P (snd (run v m acts)).
Proof.
  intros Hstep. induction acts as [|a acts IH]; intros m; cbn; [constructor|].
  specialize (Hstep m a). destruct (step v m a) as [m1 o1].
  specialize (IH m1). destruct (run v m1 acts) as [m2 o2]. cbn in *.
  apply Forall_app. split; assumption.
Qed.

(** ** One pump call, case by case *)

Ltac unfold_pumps :=
  unfold Android_PumpEvents_Blocking, Android_PumpEvents_NonBlocking,
    Blocking_before_wait, Blocking_from_wait, Blocking_resumed,
    Blocking_not_paused, detect_broken_play_state, SDL_SemWait, SDL_SemTryWait.

Ltac pump_cbn :=
  cbn -[android_egl_context_restore android_egl_context_backup Z.gtb Z.of_nat] in *.

(** Replace a call of a context function by its effect. *)
Ltac context_call :=
  match goal with
  | |- context [android_egl_context_backup ?e ?w] =>
      let w' := fresh "w'" in
      let rest := fresh "rest" in
      let Heq := fresh "Heq" in
      let Hvd := fresh "Hvd" in
      let Hps := fresh "Hps" in
      let Hrs := fresh "Hrs" in
      let Hst := fresh "Hst" in
      let Hq := fresh "Hq" in
      let Hrest := fresh "Hrest" in
      let vd' := fresh "vd'" in
      let win' := fresh "win'" in
      let st' := fresh "st'" in
      let g' := fresh "g'" in
      let ps' := fresh "ps'" in
      let rs' := fresh "rs'" in
      let q' := fresh "q'" in
      destruct (backup_effect e w)
        as (w' & rest & Heq & (Hvd & Hps & Hrs & Hst & Hq) & Hrest);
      rewrite Heq; clear Heq;
      destruct w' as [vd' win' st' g' ps' rs' q'];
      cbn in Hvd, Hps, Hrs, Hst, Hq; subst vd' ps' rs' st' q'; pump_cbn
  | |- context [android_egl_context_restore ?e ?w] =>
      let w' := fresh "w'" in
      let rest := fresh "rest" in
      let Heq := fresh "Heq" in
      let Hvd := fresh "Hvd" in
      let Hps := fresh "Hps" in
      let Hrs := fresh "Hrs" in
      let Hsv := fresh "Hsv" in
      let Hbc := fresh "Hbc" in
      let Hq := fresh "Hq" in
      let Hrest := fresh "Hrest" in
      let vd' := fresh "vd'" in
      let win' := fresh "win'" in
      let sv' := fresh "sv'" in
      let pw' := fresh "pw'" in
      let ph' := fresh "ph'" in
      let pr' := fresh "pr'" in
      let bc' := fresh "bc'" in
      let g' := fresh "g'" in
      let ps' := fresh "ps'" in
      let rs' := fresh "rs'" in
      let q' := fresh "q'" in
      let k := fresh "k" in
      destruct (restore_effect e w)
        as (w' & rest & Heq & (Hvd & Hps & Hrs & Hsv & Hbc & k & Hq) & Hrest);
      rewrite Heq; clear Heq;
      destruct w' as [vd' win' [sv' pw' ph' pr' bc'] g' ps' rs' q'];
      cbn in Hvd, Hps, Hrs, Hsv, Hbc, Hq; subst vd' ps' rs' sv' bc' q'; pump_cbn
  end.

Ltac pump_cases :=
  repeat first
    [ context_call
    | match goal with
      | |- context [if ?b then _ else _] => destruct b eqn:?; pump_cbn
      | |- context [match ?n with O => _ | S _ => _ end] =>
          destruct n eqn:?; pump_cbn
      end ].

Ltac monitor_run :=
  repeat match goal with
         | H : Forall backup_body _ |- _ => apply backup_body_protocol in H
         | H : Forall restore_body _ |- _ => apply restore_body_protocol in H
         end;
  repeat first
    [ rewrite monitor_skip by assumption
    | rewrite <- app_assoc
    | progress cbn [monitor protocol is_did_enter_background is_pause_commit
                    is_backup is_resume_commit is_did_enter_foreground
                    is_restore app] ].

Ltac protocol_done :=
  first
    [ solve [exfalso; intuition congruence]
    | eexists; split;
      [ monitor_run; reflexivity
      | cbn; intuition congruence ] ].

Lemma step_protocol v m a p :
  phase_inv v m p ->
  exists p', monitor protocol p (snd (step v m a)) = Some p'
             /\ phase_inv v (fst (step v m a)) p'.
Proof.
  intros HI. destruct m as [w t].
  destruct a; cbn [step app_acts thread world].
  1-5: destruct t; cbn; exists p; (split; [reflexivity|]);
       destruct p, v; cbn in *; tauto.
  - (* PumpEvents *)
    destruct t.
    2:{ exists p. split; [reflexivity | exact HI]. }
    destruct w as [[paused pausing audio] win st g ps rs q].
    destruct v; unfold_pumps; unfold_monad; pump_cbn.
    + destruct paused, pausing, p; cbn in HI; try (exfalso; intuition congruence).
      all: pump_cases.
      all: protocol_done.
    + destruct paused, pausing, p; cbn in HI; try (exfalso; intuition congruence).
      all: pump_cases.
      all: protocol_done.
  - (* Wake *)
    destruct t as [|e ext].
    1:{ exists p. split; [reflexivity | exact HI]. }
    destruct w as [[paused pausing audio] win st g ps rs q].
    destruct v, paused, pausing, p; cbn in HI; try (exfalso; intuition congruence).
    all: unfold_pumps; unfold_monad; pump_cbn.
    all: pump_cases.
    all: protocol_done.
Qed.

Lemma run_protocol v w acts :
  isPaused (videodata w) = false ->
  exists p p',
    p = (if isPausing (videodata w) then PAnnounced else PRunning)
    /\ monitor protocol p (snd (run v (mkMachine w AppCode) acts)) = Some p'.
Proof.
  intros Hp.
  set (p := if isPausing (videodata w) then PAnnounced else PRunning).
  assert (HI : phase_inv v (mkMachine w AppCode) p).
  { subst p. destruct (isPausing (videodata w)) eqn:E; cbn; auto. }
  destruct (run_monitor protocol v (phase_inv v) (step_protocol v) acts _ _ HI)
    as (p' & Hm & _).
  exists p, p'. split; [reflexivity | exact Hm].
Qed.

(** ** From the protocol to orderings of calls

    [spent] marks the phases in which a [use] is out of order until the
    next [grant]. *)
Section Spent.
Variables use grant : Obs -> bool.
Variable spent : Phase -> bool.
Hypothesis use_spends :
  forall p o p', protocol p o = Some p' -> use o = true ->
                 spent p = false /\ spent p' = true.
Hypothesis only_grant_refills :
  forall p o p', protocol p o = Some p' -> grant o = false ->
                 spent p = true -> spent p' = true.

Lemma grant_somewhere l :
  (exists g, In g l /\ grant g = true) \/ (forall g, In g l -> grant g = false).
Proof.
  induction l as [|o l [(g & Hin & Hg) | IH]].
  - right. intros g [].
  - left. exists g. split; [right; exact Hin | exact Hg].
  - destruct (grant o) eqn:E.
    + left. exists o. split; [left; reflexivity | exact E].
    + right. intros g [<- | Hin]; [exact E | apply IH; exact Hin].
Qed.

Lemma spent_stays l :
  forall p p',
    monitor protocol p l = Some p' -> spent p = true ->
    (forall g, In g l -> grant g = false) -> spent p' = true.
Proof.
  induction l as [|o l IH]; intros p p' Hm Hs Hg; cbn in Hm.
  - inversion Hm; subst. exact Hs.
  - destruct (protocol p o) as [p1|] eqn:E; [|discriminate].
    apply (IH p1 p' Hm).
    + eapply only_grant_refills; eauto. apply Hg. left. reflexivity.
    + intros g Hin. apply Hg. right. exact Hin.
Qed.

Lemma accepted_never_before p l p' :
  spent p = true -> monitor protocol p l = Some p' ->
  never_before use grant l.
Proof.
  intros Hs Hm l1 x l2 -> Hx.
  destruct (grant_somewhere l1) as [H | H]; [exact H | exfalso].
  rewrite monitor_app in Hm.
  destruct (monitor protocol p l1) as [p1|] eqn:E1; [|discriminate].
  pose proof (spent_stays l1 p p1 E1 Hs H) as Hs1.
  cbn in Hm. destruct (protocol p1 x) as [p2|] eqn:E2; [|discriminate].
  destruct (use_spends _ _ _ E2 Hx) as [Hf _]. congruence.
Qed.

Lemma accepted_never_twice p l p' :
  monitor protocol p l = Some p' -> never_twice use grant l.
Proof.
  intros Hm l1 x l2 y l3 -> Hx Hy.
  rewrite monitor_app in Hm.
  destruct (monitor protocol p l1) as [p1|]; [|discriminate].
  cbn in Hm. destruct (protocol p1 x) as [p2|] eqn:E2; [|discriminate].
  destruct (use_spends _ _ _ E2 Hx) as [_ Hs2].
  eapply (accepted_never_before p2 (l2 ++ y :: l3) p' Hs2 Hm); eauto.
Qed.
End Spent.

(** Decide a fact about one transition of the protocol by cases. *)
Ltac protocol_cases :=
  let q := fresh "q" in
  let o := fresh "o" in
  let q' := fresh "q'" in
  let H := fresh "H" in
  intros q o q' H;
  destruct o;
  try match goal with t : SDL_EventType |- _ => destruct t end;
  try match goal with b : bool |- _ => destruct b end;
  destruct q; cbn in *;
  try discriminate; inversion H; subst; intros; auto; try discriminate.

Lemma background_needs_foreground p l p' :
  monitor protocol p l = Some p' ->
  never_twice is_did_enter_background is_did_enter_foreground l.
Proof.
  apply accepted_never_twice
    with (spent := fun p => match p with PRunning | PForeground => false | _ => true end);
    protocol_cases.
Qed.

Lemma foreground_needs_background p l p' :
  (p = PRunning \/ p = PForeground) ->
  monitor protocol p l = Some p' ->
  never_before is_did_enter_foreground is_did_enter_background l.
Proof.
  intros Hp.
  apply accepted_never_before
    with (spent := fun p => match p with PRunning | PForeground => true | _ => false end);
    [protocol_cases | protocol_cases | destruct Hp; subst; reflexivity].
Qed.

Lemma backup_needs_commit p l p' :
  monitor protocol p l = Some p' ->
  never_twice is_backup is_pause_commit l
  /\ (p <> PCommitted -> never_before is_backup is_pause_commit l).
Proof.
  intros Hm. split; [|intros Hp].
  - revert Hm. apply accepted_never_twice
      with (spent := fun p => match p with PCommitted => false | _ => true end);
      protocol_cases.
  - revert Hm. apply accepted_never_before
      with (spent := fun p => match p with PCommitted => false | _ => true end);
      [protocol_cases | protocol_cases | destruct p; congruence].
Qed.

Lemma restore_needs_resume p l p' :
  monitor protocol p l = Some p' ->
  never_twice is_restore is_resume_commit l
  /\ (p <> PResuming -> p <> PForeground ->
      never_before is_restore is_resume_commit l).
Proof.
  intros Hm. split; [|intros Hp Hp'].
  - revert Hm. apply accepted_never_twice
      with (spent := fun p => match p with PResuming | PForeground => false | _ => true end);
      protocol_cases.
  - revert Hm. apply accepted_never_before
      with (spent := fun p => match p with PResuming | PForeground => false | _ => true end);
      [protocol_cases | protocol_cases | destruct p; congruence].
Qed.

Lemma one_background_per_commit p l p' :
  monitor protocol p l = Some p' ->
  never_twice is_did_enter_background is_pause_commit l
  /\ never_twice is_pause_commit is_did_enter_background l.
Proof.
  intros Hm. split.
  - revert Hm. apply accepted_never_twice
      with (spent := fun p => match p with PAnnounced => true | _ => false end);
      protocol_cases.
  - revert Hm. apply accepted_never_twice
      with (spent := fun p => match p with PAnnounced => false | _ => true end);
      protocol_cases.
Qed.

(** ** The pause decision of one call *)

Lemma pump_not_paused v w e :
  isPaused (videodata w) = false ->
  pause_observed w ->
  let r := step v (mkMachine w AppCode) (PumpEvents e) in
  let w' := world (fst r) in
  thread (fst r) = AppCode
  /\ count is_did_enter_background (snd r)
     = (if isPausing (videodata w) then 0%nat else 1%nat)
  /\ (if queued_background_events w' >? pause_signal_count w'
      then isPausing (videodata w') = true /\ isPaused (videodata w') = false
           /\ count is_pause_commit (snd r) = 0%nat
      else isPausing (videodata w') = false /\ isPaused (videodata w') = true
           /\ count is_pause_commit (snd r) = 1%nat).
Proof.
  intros Hp Hobs. cbv zeta.
  destruct w as [[paused pausing audio] win st g ps rs q].
  cbn in Hp; subst paused. unfold pause_observed in Hobs. cbn in Hobs.
  unfold queued_background_events, pause_signal_count.
  destruct v; cbn [step thread world];
    unfold_pumps; unfold_monad; pump_cbn.
  all: destruct pausing; pump_cbn;
    [ | destruct ps as [|ps]; [exfalso; destruct Hobs; [discriminate | lia] | pump_cbn] ].
  all: pump_cases; pump_cbn; repeat split; try reflexivity; try discriminate.
Qed.

(** ** Lifecycle properties of a run *)

(** C1.  Whatever the host, the application and the pump do, starting in
    the foreground with either pump, the calls sent out never contain a
    DidEnterForeground without a DidEnterBackground before it, nor two
    DidEnterBackground without a DidEnterForeground between them. *)
Theorem C1_foreground_background_alternate (v : Variant) (w : World) (acts : list Action) :
  isPaused (videodata w) = false ->
  isPausing (videodata w) = false ->
  never_before is_did_enter_foreground is_did_enter_background
    (snd (run v (mkMachine w AppCode) acts))
  /\ never_twice is_did_enter_background is_did_enter_foreground
       (snd (run v (mkMachine w AppCode) acts)).
Proof.
  intros Hp Hq.
  destruct (run_protocol v w acts Hp) as (p & p' & Hp0 & Hm).
  rewrite Hq in Hp0. subst p. split.
  - eapply foreground_needs_background; [left; reflexivity | exact Hm].
  - eapply background_needs_foreground. exact Hm.
Qed.

Lemma C1_witness :
  isPaused (videodata sample_world) = false
  /\ isPausing (videodata sample_world) = false
  /\ never_before is_did_enter_foreground is_did_enter_background
       (snd (run Blocking (mkMachine sample_world AppCode) sample_cycle))
  /\ never_twice is_did_enter_background is_did_enter_foreground
       (snd (run Blocking (mkMachine sample_world AppCode) sample_cycle)).
Proof.
  split; [reflexivity|]. split; [reflexivity|].
  apply (C1_foreground_background_alternate Blocking sample_world sample_cycle);
    reflexivity.
Defined.

(** C4.  At any point of a run that started in the foreground, a pump
    call that finds a pause signal observed and more queued
    DidEnterBackground events than pause signals leaves the machine
    pending (isPausing set, isPaused clear, no commitment); it sends no
    DidEnterBackground when it was already pending and exactly one
    otherwise; and over the whole run there is exactly one
    DidEnterBackground per commitment: never two without a commitment
    between them, never two commitments without one between them. *)
Theorem C4_pending_pause_waits_for_drain (v : Variant) (w : World)
        (acts : list Action) (e : Env) :
  isPaused (videodata w) = false ->
  isPausing (videodata w) = false ->
  let m := fst (run v (mkMachine w AppCode) acts) in
  let r := step v m (PumpEvents e) in
  let w' := world (fst r) in
  (isPaused (videodata (world m)) = false -> pause_observed (world m) ->
   (queued_background_events w' > pause_signal_count w' ->
    isPausing (videodata w') = true /\ isPaused (videodata w') = false
    /\ count is_pause_commit (snd r) = 0%nat)
   /\ (isPausing (videodata (world m)) = true ->
       count is_did_enter_background (snd r) = 0%nat)
   /\ (isPausing (videodata (world m)) = false ->
       count is_did_enter_background (snd r) = 1%nat))
  /\ never_twice is_did_enter_background is_pause_commit
       (snd (run v (mkMachine w AppCode) acts))
  /\ never_twice is_pause_commit is_did_enter_background
       (snd (run v (mkMachine w AppCode) acts)).
Proof.
  intros Hp Hq m r w'. split.
  - intros Hmp Hobs.
    assert (HI : phase_inv v (mkMachine w AppCode) PRunning) by (cbn; auto).
    destruct (run_monitor protocol v (phase_inv v) (step_protocol v) acts _ _ HI)
      as (p' & _ & HI').
    fold m in HI'.
    assert (Ht : thread m = AppCode).
    { destruct p'; cbn in HI'; try tauto; destruct HI' as (H1 & _); congruence. }
    destruct m as [wm tm] eqn:Em. cbn in Ht, Hmp, Hobs. subst tm.
    pose proof (pump_not_paused v wm e Hmp Hobs) as (_ & Hdeb & Hcmp).
    fold r in Hdeb, Hcmp. fold w' in Hcmp. cbn [world].
    split; [|split].
    + intros Hgt. apply Z.gt_lt, Z.gtb_lt in Hgt. rewrite Hgt in Hcmp. exact Hcmp.
    + intros Hpg. rewrite Hpg in Hdeb. exact Hdeb.
    + intros Hpg. rewrite Hpg in Hdeb. exact Hdeb.
  - destruct (run_protocol v w acts Hp) as (p & p' & _ & Hm).
    eapply one_background_per_commit. exact Hm.
Qed.

Lemma C4_witness :
  isPaused (videodata sample_world) = false
  /\ isPausing (videodata sample_world) = false
  /\ pause_observed
       (world (fst (run NonBlocking (mkMachine sample_world AppCode)
                        [nativePause; PumpEvents quiet_env])))
  /\ queued_background_events
       (world (fst (run NonBlocking (mkMachine sample_world AppCode)
                        [nativePause; PumpEvents quiet_env; PumpEvents quiet_env])))
     > pause_signal_count
         (world (fst (run NonBlocking (mkMachine sample_world AppCode)
                          [nativePause; PumpEvents quiet_env; PumpEvents quiet_env])))
  /\ isPausing
       (videodata
          (world (fst (step NonBlocking
                         (fst (run NonBlocking (mkMachine sample_world AppCode)
                                   [nativePause; PumpEvents quiet_env]))
                         (PumpEvents quiet_env))))) = true.
Proof.
  split; [reflexivity|]. split; [reflexivity|].
  split; [left; reflexivity|]. split; [reflexivity|].
  pose proof (C4_pending_pause_waits_for_drain NonBlocking sample_world
                [nativePause; PumpEvents quiet_env] quiet_env eq_refl eq_refl)
    as [H _].
  destruct (H eq_refl (or_introl eq_refl)) as [Hstay _].
  destruct (Hstay eq_refl) as [Hpausing _].
  exact Hpausing.
Defined.

(** C8.  In a run of either pump that starts unpaused, the context backup
    is entered at most once per pause commitment (never before the first
    store of isPaused = 1, never twice without such a store between) and
    the context restore at most once per resume commitment (the same with
    the store of isPaused = 0). *)
Theorem C8_backup_and_restore_once_per_commitment (v : Variant) (w : World)
        (acts : list Action) :
  isPaused (videodata w) = false ->
  never_before is_backup is_pause_commit (snd (run v (mkMachine w AppCode) acts))
  /\ never_twice is_backup is_pause_commit (snd (run v (mkMachine w AppCode) acts))
  /\ never_before is_restore is_resume_commit (snd (run v (mkMachine w AppCode) acts))
  /\ never_twice is_restore is_resume_commit (snd (run v (mkMachine w AppCode) acts)).
Proof.
  intros Hp.
  destruct (run_protocol v w acts Hp) as (p & p' & Hp0 & Hm).
  destruct (backup_needs_commit _ _ _ Hm) as [Hb2 Hb1].
  destruct (restore_needs_resume _ _ _ Hm) as [Hr2 Hr1].
  assert (Hne : p <> PCommitted /\ p <> PResuming /\ p <> PForeground).
  { subst p. destruct (isPausing (videodata w)); repeat split; discriminate. }
  destruct Hne as (H1 & H2 & H3). auto.
Qed.

Lemma C8_witness :
  isPaused (videodata sample_world) = false
  /\ never_twice is_backup is_pause_commit
       (snd (run NonBlocking (mkMachine sample_world AppCode) sample_cycle))
  /\ never_twice is_restore is_resume_commit
       (snd (run NonBlocking (mkMachine sample_world AppCode) sample_cycle)).
Proof.
  split; [reflexivity|].
  pose proof (C8_backup_and_restore_once_per_commitment NonBlocking sample_world
                sample_cycle eq_refl) as (_ & H2 & _ & H4).
  split; assumption.
Defined.

(** ** Properties of every call of a run *)

Lemma step_forall (P : Obs -> Prop) v :
  (forall e, emits P (Android_PumpEvents_Blocking e)) ->
  (forall e ext, emits P (Blocking_from_wait e ext)) ->
  (forall e, emits P (Android_PumpEvents_NonBlocking e)) ->
  forall m a, Forall P (snd (step v m a)).
Proof.
  intros HB HW HN [w t] a.
  destruct a; cbn [step app_acts thread world]; try (destruct t; constructor).
  - destruct t; [|constructor]. destruct v.
    + specialize (HB e w). unfold out_of in HB.
      destruct (Android_PumpEvents_Blocking e w) as [[t' w'] o]. exact HB.
    + specialize (HN e w). unfold out_of in HN.
      destruct (Android_PumpEvents_NonBlocking e w) as [[u w'] o]. exact HN.
  - destruct t as [|e ext]; [constructor|].
    specialize (HW e ext w). unfold out_of in HW.
    destruct (Blocking_from_wait e ext w) as [[t' w'] o]. exact HW.
Qed.

Ltac emits_pump :=
  unfold Android_PumpEvents_Blocking, Android_PumpEvents_NonBlocking,
    Blocking_before_wait, Blocking_from_wait, Blocking_resumed,
    Blocking_not_paused, detect_broken_play_state;
  unfold_calls;
  repeat first
    [ emits_step
    | apply restore_same_device_size
    | apply restore_emits;
      [ | let o := fresh "o" in
          intros o ?; destruct o; try contradiction ]
    | apply backup_emits;
      [ | let o := fresh "o" in
          intros o ?; destruct o; try contradiction ] ].

Lemma pumps_same_device_size v m a : Forall same_device_size (snd (step v m a)).
Proof.
  apply step_forall; intros; emits_pump; exact I.
Qed.

(** C10.  In any run of either pump, from any state, every resolution
    pushed to the windowing layer carries device dimensions equal to the
    surface dimensions, whether they came from the native window or from
    the window's last known size. *)
Theorem C10_device_size_is_surface_size (v : Variant) (m : Machine) (acts : list Action) :
  Forall same_device_size (snd (run v m acts))
  /\ forall e win sw sh dw dh,
       surface_geometry e win = (sw, sh, dw, dh) -> dw = sw /\ dh = sh.
Proof.
  split.
  - apply run_forall. apply pumps_same_device_size.
  - apply surface_geometry_device.
Qed.

Lemma NonBlocking_no_blocking_wait e :
  emits (fun o => is_blocking_wait o = false) (Android_PumpEvents_NonBlocking e).
Proof.
  emits_pump; reflexivity.
Qed.

Lemma NonBlocking_thread_stays v m a :
  v = NonBlocking -> thread m = AppCode -> thread (fst (step v m a)) = AppCode.
Proof.
  intros -> Ht. destruct m as [w t]. cbn in Ht. subst t.
  destruct a; cbn [step app_acts thread world fst]; try reflexivity.
  destruct (Android_PumpEvents_NonBlocking e w) as [[u w'] o]. reflexivity.
Qed.

Lemma NonBlocking_step_no_wait m a :
  thread m = AppCode ->
  Forall (fun o => is_blocking_wait o = false) (snd (step NonBlocking m a)).
Proof.
  intros Ht. destruct m as [w t]. cbn in Ht. subst t.
  destruct a; cbn [step app_acts thread world snd]; try constructor.
  pose proof (NonBlocking_no_blocking_wait e w) as H. unfold out_of in H.
  destruct (Android_PumpEvents_NonBlocking e w) as [[u w'] o]. exact H.
Qed.

(** C7.  The NonBlocking pump, called any number of times from any state
    and interleaved with anything the host and the application do, never
    calls the blocking wait on either semaphore, and the calling thread is
    never left suspended. *)
Theorem C7_nonblocking_never_waits (w : World) (acts : list Action) :
  thread (fst (run NonBlocking (mkMachine w AppCode) acts)) = AppCode
  /\ Forall (fun o => is_blocking_wait o = false)
            (snd (run NonBlocking (mkMachine w AppCode) acts)).
Proof.
  assert (H : forall acts m, thread m = AppCode ->
                thread (fst (run NonBlocking m acts)) = AppCode
                /\ Forall (fun o => is_blocking_wait o = false)
                          (snd (run NonBlocking m acts))).
  { clear. induction acts as [|a acts IH]; intros m Ht; cbn.
    - split; [exact Ht | constructor].
    - pose proof (NonBlocking_thread_stays NonBlocking m a eq_refl Ht) as Ht1.
      pose proof (NonBlocking_step_no_wait m a Ht) as Ho1.
      destruct (step NonBlocking m a) as [m1 o1]. cbn in *.
      destruct (IH m1 Ht1) as [Ht2 Ho2].
      destruct (run NonBlocking m1 acts) as [m2 o2]. cbn in *.
      split; [exact Ht2 | apply Forall_app; split; assumption]. }
  apply H. reflexivity.
Qed.

(** ** The blocking wait *)

Lemma never_before_quiet use grant l1 l2 :
  Forall (fun o => use o = false) l1 ->
  never_before use grant l2 -> never_before use grant (l1 ++ l2).
Proof.
  induction 1 as [|o l1 Ho _ IH]; intros H2; [exact H2|].
  intros k1 x k2 Heq Hx. destruct k1 as [|y k1]; cbn in Heq.
  - inversion Heq; subst. congruence.
  - inversion Heq as [[Hy Hl]].
    destruct (IH H2 k1 x k2 Hl Hx) as (g & Hin & Hg).
    exists g. split; [right; exact Hin | exact Hg].
Qed.

Lemma never_before_granted use grant g l :
  grant g = true -> use g = false -> never_before use grant (g :: l).
Proof.
  intros Hg Hu k1 x k2 Heq Hx. destruct k1 as [|y k1]; cbn in Heq.
  - inversion Heq; subst. congruence.
  - inversion Heq; subst. exists y. split; [left; reflexivity | exact Hg].
Qed.

Lemma never_before_nil use grant : never_before use grant [].
Proof. intros [|y k1] x k2 Heq; discriminate. Qed.

(** The wait either leaves the thread suspended, silently, or starts by
    reporting that it returned. *)
Lemma Blocking_from_wait_cases e ext w :
  (ResumeSem w = 0%nat /\ Blocking_from_wait e ext w = (InSemWait e ext, w, []))
  \/ (exists n w' rest,
        ResumeSem w = S n
        /\ Blocking_from_wait e ext w
           = (AppCode, w', SemWait_returned Android_ResumeSem 0 :: rest)).
Proof.
  unfold Blocking_from_wait, SDL_SemWait, bind. cbn [sem_count].
  destruct (ResumeSem w) as [|n]; [left; split; reflexivity | right].
  cbn [ret Z.eqb when]. unfold bind.
  destruct (Blocking_resumed e ext (set_sem Android_ResumeSem n w)) as [[u1 w1] o1].
  destruct (detect_broken_play_state e w1) as [[u2 w2] o2].
  cbn. eauto.
Qed.

Lemma Blocking_before_wait_no_return e :
  emits (fun o => is_pump_return o = false) (Blocking_before_wait e).
Proof. emits_pump; reflexivity. Qed.

(** A suspended thread stays suspended while no Resume signal is raised. *)
Lemma suspended_stays e ext :
  forall acts m,
    thread m = InSemWait e ext -> ResumeSem (world m) = 0%nat ->
    ~ In nativeResume acts ->
    thread (fst (run Blocking m acts)) = InSemWait e ext
    /\ snd (run Blocking m acts) = [].
Proof.
  induction acts as [|a acts IH]; intros [w t] Ht Hr Hn; cbn in Ht, Hr; subst t.
  - split; reflexivity.
  - assert (Hs : exists w1, step Blocking (mkMachine w (InSemWait e ext)) a
                            = (mkMachine w1 (InSemWait e ext), [])
                            /\ ResumeSem w1 = 0%nat).
    { destruct a; cbn [step app_acts thread world];
        try (eexists; split; [reflexivity | exact Hr]).
      - exfalso. apply Hn. left. reflexivity.
      - destruct (Blocking_from_wait_cases e ext w) as [[_ ->] | (n & ? & ? & Hc & _)];
          [|congruence].
        eexists; split; [reflexivity | exact Hr]. }
    destruct Hs as (w1 & Hs & Hr1).
    cbn [run]. rewrite Hs.
    destruct (IH (mkMachine w1 (InSemWait e ext)) eq_refl Hr1) as [Ht2 Ho2].
    { intros Hin. apply Hn. right. exact Hin. }
    destruct (run Blocking (mkMachine w1 (InSemWait e ext)) acts) as [m2 o2].
    cbn in *. subst o2. split; [exact Ht2 | reflexivity].
Qed.

(** From a suspended thread, control returns only after the wait did. *)
Lemma suspended_returns_after_wait :
  forall acts m,
    thread m <> AppCode ->
    never_before is_pump_return is_resume_wait_done (snd (run Blocking m acts)).
Proof.
  induction acts as [|a acts IH]; intros [w t] Ht; cbn in Ht.
  - apply never_before_nil.
  - destruct t as [|e ext]; [congruence|].
    assert (Hs : (exists w1, step Blocking (mkMachine w (InSemWait e ext)) a
                             = (mkMachine w1 (InSemWait e ext), []))
                 \/ (exists m1 rest,
                       step Blocking (mkMachine w (InSemWait e ext)) a
                       = (m1, SemWait_returned Android_ResumeSem 0 :: rest))).
    { destruct a; cbn [step app_acts thread world];
        try (left; eexists; reflexivity).
      destruct (Blocking_from_wait_cases e ext w)
        as [[_ ->] | (n & w' & rest & _ & ->)];
        [left | right]; eauto. }
    cbn [run].
    destruct Hs as [(w1 & ->) | (m1 & rest & ->)].
    + specialize (IH (mkMachine w1 (InSemWait e ext))).
      destruct (run Blocking (mkMachine w1 (InSemWait e ext)) acts) as [m2 o2].
      cbn in *. apply IH. discriminate.
    + destruct (run Blocking m1 acts) as [m2 o2]. cbn.
      apply never_before_granted; reflexivity.
Qed.

(** The first call of the Blocking pump with [isPaused] set. *)
Lemma Blocking_paused_call e w :
  isPaused (videodata w) = true ->
  exists pre w1,
    Forall (fun o => is_pump_return o = false) pre
    /\ ResumeSem w1 = ResumeSem w
    /\ ((ResumeSem w = 0%nat
         /\ step Blocking (mkMachine w AppCode) (PumpEvents e)
            = (mkMachine w1 (InSemWait e (SDL_IsVideoContextExternal e)), pre))
        \/ (exists w2 rest,
              ResumeSem w <> 0%nat
              /\ step Blocking (mkMachine w AppCode) (PumpEvents e)
                 = (mkMachine w2 AppCode,
                    pre ++ SemWait_returned Android_ResumeSem 0 :: rest))).
Proof.
  intros Hp. cbn [step thread world].
  unfold Android_PumpEvents_Blocking, bind, get. cbv beta iota.
  rewrite Hp. cbv beta iota.
  pose proof (Blocking_before_wait_no_return e w) as Hpre. unfold out_of in Hpre.
  assert (Hrs : ResumeSem (world_of (Blocking_before_wait e w)) = ResumeSem w
                /\ val_of (Blocking_before_wait e w) = SDL_IsVideoContextExternal e).
  { unfold Blocking_before_wait. unfold_monad.
    destruct (negb (SDL_IsVideoContextExternal e)); pump_cbn.
    - context_call. split; reflexivity.
    - split; reflexivity. }
  unfold world_of, val_of in Hrs.
  destruct (Blocking_before_wait e w) as [[ext w1] pre]. cbn in Hrs, Hpre.
  destruct Hrs as [Hrs ->].
  exists pre, w1. split; [exact Hpre|]. split; [exact Hrs|].
  destruct (Blocking_from_wait_cases e (SDL_IsVideoContextExternal e) w1)
    as [[Hz ->] | (n & w2 & rest & Hn & ->)].
  - left. split; [congruence|]. rewrite app_nil_r. reflexivity.
  - right. exists w2, rest. split; [congruence | reflexivity].
Qed.

(** C6, as amended.  A call of the Blocking pump made with isPaused set
    does not return before its wait on the Resume semaphore has returned
    0; while no Resume signal is raised the thread stays suspended in that
    wait and no pump call returns. *)
Theorem C6_blocked_until_resume (w : World) (e : Env) (acts : list Action) :
  isPaused (videodata w) = true ->
  never_before is_pump_return is_resume_wait_done
    (snd (run Blocking (mkMachine w AppCode) (PumpEvents e :: acts)))
  /\ (ResumeSem w = 0%nat -> ~ In nativeResume acts ->
      thread (fst (run Blocking (mkMachine w AppCode) (PumpEvents e :: acts)))
      = InSemWait e (SDL_IsVideoContextExternal e)
      /\ count is_pump_return
           (snd (run Blocking (mkMachine w AppCode) (PumpEvents e :: acts))) = 0%nat).
Proof.
  intros Hp.
  destruct (Blocking_paused_call e w Hp) as (pre & w1 & Hpre & Hrs & Hcase).
  cbn [run].
  destruct Hcase as [[Hz ->] | (w2 & rest & Hnz & ->)].
  - pose proof (suspended_returns_after_wait acts
                  (mkMachine w1 (InSemWait e (SDL_IsVideoContextExternal e)))) as Hnb.
    pose proof (suspended_stays e (SDL_IsVideoContextExternal e) acts
                  (mkMachine w1 (InSemWait e (SDL_IsVideoContextExternal e)))
                  eq_refl) as Hst.
    destruct (run Blocking (mkMachine w1 (InSemWait e (SDL_IsVideoContextExternal e))) acts)
      as [m2 o2]. cbn [fst snd] in *.
    split.
    + apply never_before_quiet; [exact Hpre | apply Hnb; discriminate].
    + intros _ Hn. cbn [world] in Hst.
      destruct (Hst ltac:(congruence) Hn) as [Ht ->].
      split; [exact Ht|]. rewrite app_nil_r.
      unfold count. clear - Hpre.
      induction Hpre as [|o l Ho _ IH]; cbn; [reflexivity|].
      rewrite Ho. exact IH.
  - destruct (run Blocking (mkMachine w2 AppCode) acts) as [m2 o2]. cbn [fst snd].
    split.
    + rewrite <- app_assoc. apply never_before_quiet; [exact Hpre|].
      cbn. apply never_before_granted; reflexivity.
    + intros Hz. congruence.
Qed.

Lemma C6_witness :
  isPaused (videodata paused_world) = true
  /\ ResumeSem paused_world = 0%nat
  /\ ~ In nativeResume [nativePause; Wake; PumpEvents quiet_env]
  /\ never_before is_pump_return is_resume_wait_done
       (snd (run Blocking (mkMachine paused_world AppCode)
                 (PumpEvents quiet_env :: [nativePause; Wake; PumpEvents quiet_env])))
  /\ thread (fst (run Blocking (mkMachine paused_world AppCode)
                      (PumpEvents quiet_env :: [nativePause; Wake; PumpEvents quiet_env])))
     = InSemWait quiet_env (SDL_IsVideoContextExternal quiet_env).
Proof.
  assert (Hn : ~ In nativeResume [nativePause; Wake; PumpEvents quiet_env]).
  { intros [H | [H | [H | []]]]; discriminate H. }
  split; [reflexivity|]. split; [reflexivity|]. split; [exact Hn|].
  destruct (C6_blocked_until_resume paused_world quiet_env
              [nativePause; Wake; PumpEvents quiet_env] eq_refl) as [H1 H2].
  split; [exact H1|].
  destruct (H2 eq_refl Hn) as [Ht _]. exact Ht.
Defined.

(** C6, as stated, fails: the call that commits the pause returns to the
    caller at once; the wait is made by the next call. *)
Lemma C6_counterexample :
  ~ returns_only_after_resume
      (snd (run Blocking (mkMachine sample_world AppCode) pause_and_commit)).
Proof.
  intros H.
  destruct (H [CSemTryWait Android_PauseSem 0; CGL_GetSwapInterval 1;
               CSendWindowEvent SDL_WINDOWEVENT_MINIMIZED;
               CSendAppEvent SDL_APP_WILLENTERBACKGROUND;
               CSendAppEvent SDL_APP_DIDENTERBACKGROUND;
               CSemValue Android_PauseSem 0; Pump_return;
               CSemValue Android_PauseSem 0] [] [] eq_refl)
    as (g & [] & _).
Qed.

(** ** The restore: geometry, refresh rate, lost context *)

Lemma need_update_false sw sh rate s :
  need_update sw sh rate s = false
  <-> (sw, sh, rate) = (prev_surface_w s, prev_surface_h s, prev_rate s).
Proof.
  unfold need_update. split.
  - intros H. apply orb_false_elim in H as [H H3].
    apply orb_false_elim in H as [H1 H2].
    apply negb_false_iff, Z.eqb_eq in H1, H2, H3. congruence.
  - intros H. inversion H; subst. rewrite !Z.eqb_refl. reflexivity.
Qed.

Lemma restore_geometry_push e w win sw sh rate :
  Android_Window w = Some win ->
  restore_triple e win = (sw, sh, rate) ->
  count is_resize (out_of (android_egl_context_restore e w))
  = (if need_update sw sh rate (statics w) then 1%nat else 0%nat)
  /\ count is_set_resolution (out_of (android_egl_context_restore e w))
     = (if need_update sw sh rate (statics w) then 1%nat else 0%nat)
  /\ memo (world_of (android_egl_context_restore e w))
     = (if need_update sw sh rate (statics w) then (sw, sh, rate) else memo w).
Proof.
  intros Hw Ht. destruct w as [vd ow st g ps rs q]; cbn in Hw; subst ow.
  unfold restore_triple in Ht.
  restore_cases e win; inversion Ht; subst; try congruence;
    repeat split; reflexivity.
Qed.

Lemma max_refresh_rate_positive display : 0 < max_refresh_rate display.
Proof.
  destruct (max_refresh_rate_cases display) as [[H _] | [H _]]; lia.
Qed.

Lemma restore_format_push e w win :
  Android_Window w = Some win ->
  count is_set_format (out_of (android_egl_context_restore e w))
  = (if native_window (driverdata win) && (ANativeWindow_getFormat e >? 0)
     then 1%nat else 0%nat).
Proof.
  intros Hw. destruct w as [vd ow st g ps rs q]; cbn in Hw; subst ow.
  restore_cases e win; try congruence; reflexivity.
Qed.

(** C2, as amended.  A restore pushes the resolution and sends the resize
    notification exactly when the triple (surface width, surface height,
    refresh rate) differs from the memo, and then records the triple; the
    pixel format is not under that test: it is pushed by every restore
    whose native window reports a positive format.  A second restore with
    the same triple pushes no resolution and sends no resize, so two
    consecutive restores with the same geometry send exactly one resize
    notification when that geometry differs from the memo before the
    first (as it always does right after start-up) and none when it does
    not. *)
Theorem C2_resize_only_on_new_geometry (e : Env) (w : World) (win : SDL_Window) :
  Android_Window w = Some win ->
  let r := android_egl_context_restore e w in
  (restore_triple e win <> memo w ->
   count is_set_resolution (out_of r) = 1%nat /\ count is_resize (out_of r) = 1%nat)
  /\ (restore_triple e win = memo w ->
      count is_set_resolution (out_of r) = 0%nat /\ count is_resize (out_of r) = 0%nat)
  /\ count is_set_format (out_of r)
     = (if native_window (driverdata win) && (ANativeWindow_getFormat e >? 0)
        then 1%nat else 0%nat)
  /\ memo (world_of r) = restore_triple e win
  /\ forall e2 w2 win2,
       Android_Window w2 = Some win2 ->
       memo w2 = memo (world_of r) ->
       restore_triple e2 win2 = restore_triple e win ->
       let r2 := android_egl_context_restore e2 w2 in
       count is_set_resolution (out_of r2) = 0%nat
       /\ count is_resize (out_of r2) = 0%nat
       /\ (restore_triple e win <> memo w ->
           count is_resize (out_of r ++ out_of r2) = 1%nat)
       /\ (restore_triple e win = memo w ->
           count is_resize (out_of r ++ out_of r2) = 0%nat)
       /\ (memo w = (0, 0, 0) ->
           count is_resize (out_of r ++ out_of r2) = 1%nat).
Proof.
  intros Hw r.
  pose proof (restore_format_push e w win Hw) as Hf. fold r in Hf.
  destruct (restore_triple e win) as [[sw sh] rate] eqn:Ht.
  destruct (restore_geometry_push e w win sw sh rate Hw Ht) as (Hr & Hs & Hm).
  fold r in Hr, Hs, Hm.
  assert (Hmemo : memo (world_of r) = (sw, sh, rate)).
  { rewrite Hm. destruct (need_update sw sh rate (statics w)) eqn:E; [reflexivity|].
    apply need_update_false in E. symmetry. exact E. }
  assert (Hnew : (sw, sh, rate) <> memo w -> need_update sw sh rate (statics w) = true).
  { intros Hne. destruct (need_update sw sh rate (statics w)) eqn:E; [reflexivity|].
    apply need_update_false in E. contradiction. }
  assert (Hold : (sw, sh, rate) = memo w -> need_update sw sh rate (statics w) = false).
  { intros Heq. apply need_update_false. exact Heq. }
  split; [|split; [|split; [|split]]].
  - intros Hne. rewrite Hr, Hs, (Hnew Hne). split; reflexivity.
  - intros Heq. rewrite Hr, Hs, (Hold Heq). split; reflexivity.
  - exact Hf.
  - exact Hmemo.
  - intros e2 w2 win2 Hw2 Hm2 Ht2 r2.
    destruct (restore_geometry_push e2 w2 win2 sw sh rate Hw2 Ht2) as (Hr2 & Hs2 & _).
    fold r2 in Hr2, Hs2.
    assert (E2 : need_update sw sh rate (statics w2) = false).
    { apply need_update_false. rewrite <- Hmemo, <- Hm2. reflexivity. }
    rewrite E2 in Hr2, Hs2. split; [exact Hs2|]. split; [exact Hr2|].
    assert (Hone : (sw, sh, rate) <> memo w ->
                   count is_resize (out_of r ++ out_of r2) = 1%nat).
    { intros Hne. unfold count in *.
      rewrite filter_app, length_app, Hr, Hr2, (Hnew Hne). reflexivity. }
    split; [exact Hone|]. split.
    + intros Heq. unfold count in *.
      rewrite filter_app, length_app, Hr, Hr2, (Hold Heq). reflexivity.
    + intros Hfresh. apply Hone. rewrite Hfresh. intros Heq.
      unfold restore_triple in Ht.
      destruct (surface_geometry e win) as [[[a b] c] d].
      pose proof (max_refresh_rate_positive (SDL_GetDisplayForWindow e)).
      inversion Ht; subst. inversion Heq. lia.
Qed.

Lemma C2_witness :
  Android_Window sample_world = Some sample_window
  /\ restore_triple quiet_env sample_window <> memo sample_world
  /\ count is_resize
       (out_of (android_egl_context_restore quiet_env sample_world)
        ++ out_of (android_egl_context_restore quiet_env
                     (world_of (android_egl_context_restore quiet_env sample_world))))
     = 1%nat
  /\ count is_set_format
       (out_of (android_egl_context_restore quiet_env sample_world)) = 1%nat.
Proof.
  split; [reflexivity|]. split; [discriminate|].
  pose proof (C2_resize_only_on_new_geometry quiet_env sample_world sample_window
                eq_refl) as (_ & _ & Hf & _ & H).
  destruct (H quiet_env
              (world_of (android_egl_context_restore quiet_env sample_world))
              sample_window eq_refl eq_refl eq_refl) as (_ & _ & _ & _ & Hfresh).
  split; [apply Hfresh; reflexivity | exact Hf].
Defined.

(** C2, as stated, fails twice over on a world whose memo already holds
    the geometry: the restore still pushes the pixel format, and two
    further restores with that same geometry send no resize at all. *)
Lemma C2_counterexample :
  ~ pushes_nothing_when_unchanged quiet_env restored_world
  /\ ~ two_restores_one_resize quiet_env restored_world.
Proof.
  split; intros H.
  - destruct (H sample_window eq_refl eq_refl) as (Hf & _).
    vm_compute in Hf. discriminate Hf.
  - specialize (H sample_window sample_window eq_refl eq_refl eq_refl).
    vm_compute in H. discriminate H.
Qed.

(** Two resumes in a row with the same geometry, under either pump: two
    restores, one resize notification. *)
Example two_resumes_one_resize :
  forall v,
    count is_restore (snd (run v (mkMachine sample_world AppCode) two_cycles)) = 2%nat
    /\ count is_resize (snd (run v (mkMachine sample_world AppCode) two_cycles)) = 1%nat.
Proof. intros [|]; vm_compute; split; reflexivity. Qed.

(** C9, as amended.  The rate a restore pushes is [max_refresh_rate] of
    the window's display converted to single precision: when some
    reported rate (desktop mode or enumerated mode) is positive
    [max_refresh_rate] is the largest reported rate, and when none is, or
    there is no display, it is 60; the pushed value equals it whenever it
    is at most 2^24, and is 60 in the second case. *)
Theorem C9_refresh_rate_is_maximum_or_60 (e : Env) (w : World) :
  let display := SDL_GetDisplayForWindow e in
  let rates := reported_rates display in
  Forall (pushes_rate (float_of_int (max_refresh_rate display)))
         (out_of (android_egl_context_restore e w))
  /\ (max_refresh_rate display <= 2 ^ 24 ->
      float_of_int (max_refresh_rate display) = max_refresh_rate display)
  /\ ((exists r, In r rates /\ 0 < r) ->
      In (max_refresh_rate display) rates
      /\ forall r, In r rates -> r <= max_refresh_rate display)
  /\ ((forall r, In r rates -> r <= 0) ->
      max_refresh_rate display = 60
      /\ float_of_int (max_refresh_rate display) = 60).
Proof.
  intros display rates. split; [apply restore_pushes_rate|].
  split.
  { intros Hle. apply float_of_int_exact.
    pose proof (max_refresh_rate_positive display). lia. }
  destruct (max_refresh_rate_cases display) as [[H60 Hnone] | [Hpos Hin]].
  - split.
    + intros (r & Hr & Hp). specialize (Hnone r Hr). lia.
    + intros _. rewrite H60. split; reflexivity.
  - split.
    + intros _. split; [exact Hin|].
      intros r Hr. destruct (Z_lt_le_dec 0 r) as [Hp | Hn].
      * apply max_refresh_rate_upper; assumption.
      * lia.
    + intros Hnone. specialize (Hnone _ Hin). lia.
Qed.

Lemma C9_witness :
  (forall r, In r (reported_rates (Some silent_display)) -> r <= 0)
  /\ max_refresh_rate (Some silent_display) = 60
  /\ float_of_int (max_refresh_rate (Some silent_display)) = 60.
Proof.
  assert (H : forall r, In r (reported_rates (Some silent_display)) -> r <= 0).
  { cbn. intros r [<- | [<- | [<- | []]]]; lia. }
  split; [exact H|].
  apply (C9_refresh_rate_is_maximum_or_60
           (mkEnv false false false (fun _ => true) 7 0x3000 1080 1920 4
                  (fun _ => true) (Some silent_display))
           sample_world).
  exact H.
Defined.

(** C9, as stated, fails: with a mode at 16777217 Hz the maximum is
    16777217 and the restore pushes 16777216, the nearest single-precision
    value. *)
Lemma C9_counterexample : ~ pushes_the_maximum fast_display_env sample_world.
Proof.
  intros H. unfold pushes_the_maximum in H. rewrite Forall_forall in H.
  specialize (H (CAndroid_SetScreenResolution 1080 1920 1080 1920 16777216)).
  assert (Hin : In (CAndroid_SetScreenResolution 1080 1920 1080 1920 16777216)
                   (out_of (android_egl_context_restore fast_display_env sample_world))).
  { vm_compute. do 4 right. left. reflexivity. }
  specialize (H Hin). vm_compute in H. discriminate H.
Qed.

(** C5, as amended.  When making the saved context current fails, the
    restore creates one new context, stores it in the window data, makes
    it current and pushes a device reset for the failure; a second device
    reset follows exactly when the error query then reports EGL_BAD_ALLOC
    or EGL_BAD_MATCH, so the restore pushes exactly one in total when it
    reports neither. *)
Theorem C5_lost_context_is_recreated (e : Env) (w : World) (win : SDL_Window) :
  Android_Window w = Some win ->
  MakeCurrent_ok e (egl_context (driverdata win)) = false ->
  let r := android_egl_context_restore e w in
  let ctx := CreateContext_result e in
  count is_create_context (out_of r) = 1%nat
  /\ In (CGL_CreateContext ctx) (out_of r)
  /\ (exists res, In (CGL_MakeCurrent ctx res) (out_of r))
  /\ saved_context (world_of r) = Some ctx
  /\ (MakeCurrent_ok e ctx = true -> current_context (gl (world_of r)) = ctx)
  /\ count is_device_reset (out_of r) = (if egl_error_is_bad e then 2%nat else 1%nat).
Proof.
  intros Hw Hfail. destruct w as [vd ow st g ps rs q]; cbn in Hw; subst ow.
  cbv zeta. unfold egl_error_is_bad, saved_context.
  restore_cases e win; try congruence;
    repeat split; try reflexivity; try discriminate;
    try (eexists; cbn; eauto 12); cbn; eauto 12.
Qed.

Lemma C5_witness :
  Android_Window sample_world = Some sample_window
  /\ MakeCurrent_ok lost_context_env (egl_context (driverdata sample_window)) = false
  /\ count is_device_reset
       (out_of (android_egl_context_restore lost_context_env sample_world)) = 2%nat.
Proof.
  split; [reflexivity|]. split; [reflexivity|].
  pose proof (C5_lost_context_is_recreated lost_context_env sample_world sample_window
                eq_refl eq_refl) as (_ & _ & _ & _ & _ & H).
  exact H.
Defined.

(** C5, as stated, fails: with the saved context lost and the error query
    reporting EGL_BAD_ALLOC the restore pushes two device resets. *)
Lemma C5_counterexample : ~ one_reset_when_lost lost_context_env sample_world.
Proof.
  intros H. specialize (H sample_window eq_refl eq_refl). discriminate H.
Qed.

(** ** The swap interval *)

(** What a restore does to the swap interval, given the saved value. *)
Lemma restore_swap_interval e w win :
  Android_Window w = Some win ->
  let saved := saved_swap_interval (statics w) in
  let w' := world_of (android_egl_context_restore e w) in
  (SetSwapInterval_ok e saved = true -> swap_interval (gl w') = saved)
  /\ (SetSwapInterval_ok e saved = false -> SetSwapInterval_ok e 0 = true ->
      swap_interval (gl w') = 0).
Proof.
  intros Hw. destruct w as [vd ow st g ps rs q]; cbn in Hw; subst ow. cbv zeta.
  restore_cases e win; split; intros; cbn;
    repeat match goal with
           | H : negb (_ =? 0) = false |- _ =>
               apply negb_false_iff, Z.eqb_eq in H
           end;
    congruence.
Qed.

(** The Blocking pump records the swap interval when it first sees the
    pause signal. *)
Lemma Blocking_captures_swap_interval w e :
  isPaused (videodata w) = false ->
  isPausing (videodata w) = false ->
  (0 < PauseSem w)%nat ->
  saved_swap_interval
    (statics (world (fst (step Blocking (mkMachine w AppCode) (PumpEvents e)))))
  = swap_interval (gl w).
Proof.
  intros Hp Hq Hs.
  destruct w as [[paused pausing audio] win st g ps rs q].
  cbn in Hp, Hq, Hs; subst paused pausing.
  destruct ps as [|ps]; [lia|].
  cbn [step thread world]. unfold_pumps; unfold_monad; pump_cbn.
  pump_cases; reflexivity.
Qed.

(** The NonBlocking pump never writes [saved_swap_interval]. *)
Lemma NonBlocking_step_keeps_saved m a :
  saved_swap_interval (statics (world (fst (step NonBlocking m a))))
  = saved_swap_interval (statics (world m)).
Proof.
  destruct m as [w t].
  destruct a; cbn [step app_acts thread world]; try (destruct t; reflexivity).
  - destruct t; [|reflexivity].
    destruct w as [[paused pausing audio] win st g ps rs q].
    unfold_pumps; unfold_monad; pump_cbn.
    pump_cases; reflexivity.
  - destruct t as [|e ext]; [reflexivity|].
    destruct w as [[paused pausing audio] win st g ps rs q].
    unfold_pumps; unfold_monad; pump_cbn.
    pump_cases; reflexivity.
Qed.

Lemma NonBlocking_run_keeps_saved :
  forall acts m,
    saved_swap_interval (statics (world (fst (run NonBlocking m acts))))
    = saved_swap_interval (statics (world m)).
Proof.
  induction acts as [|a acts IH]; intros m; cbn; [reflexivity|].
  pose proof (NonBlocking_step_keeps_saved m a) as H1.
  destruct (step NonBlocking m a) as [m1 o1].
  specialize (IH m1). destruct (run NonBlocking m1 acts) as [m2 o2].
  cbn in *. congruence.
Qed.

(** C3, on the code.  The NonBlocking pump never records the swap
    interval: whatever the run, [saved_swap_interval] keeps the value it
    had.  Started from a fresh world with swap interval 1, a full pause and
    resume cycle reads no swap interval, restores once, asks for interval
    0 and leaves the swap interval at 0. *)
Theorem C3_nonblocking_loses_swap_interval :
  (forall m acts,
     saved_swap_interval (statics (world (fst (run NonBlocking m acts))))
     = saved_swap_interval (statics (world m)))
  /\ swap_interval (gl sample_world) = 1
  /\ count is_get_swap_interval
       (snd (run NonBlocking (mkMachine sample_world AppCode) nonblocking_cycle)) = 0%nat
  /\ count is_restore
       (snd (run NonBlocking (mkMachine sample_world AppCode) nonblocking_cycle)) = 1%nat
  /\ In (CGL_SetSwapInterval 0 0)
        (snd (run NonBlocking (mkMachine sample_world AppCode) nonblocking_cycle))
  /\ swap_interval
       (gl (world (fst (run NonBlocking (mkMachine sample_world AppCode)
                            nonblocking_cycle)))) = 0.
Proof.
  split; [intros m acts; apply NonBlocking_run_keeps_saved|].
  vm_compute. repeat split; try reflexivity.
  do 35 (try (left; reflexivity); right).
Qed.

(** The same cycle under the Blocking pump gives the interval back. *)
Example Blocking_cycle_restores_swap_interval :
  swap_interval
    (gl (world (fst (run Blocking (mkMachine sample_world AppCode) sample_cycle)))) = 1
  /\ In (CGL_SetSwapInterval 1 0)
        (snd (run Blocking (mkMachine sample_world AppCode) sample_cycle)).
Proof.
  vm_compute. split; [reflexivity|].
  do 40 (try (left; reflexivity); right).
Qed.

(** * Further properties of the same code *)

(** ** The two context functions on their own *)

(** X1.  With a window, the backup stores the context that is current in
    the window data, marks the backup done, detaches the context when the
    platform accepts the detach, and leaves the pause flags, the
    semaphores, the statics and the event queue alone. *)
Theorem X1_backup_saves_and_detaches (e : Env) (w : World) (win : SDL_Window) :
  Android_Window w = Some win ->
  saved_context (world_of (android_egl_context_backup e w))
  = Some (current_context (gl w))
  /\ window_backup_done (world_of (android_egl_context_backup e w)) = Some 1
  /\ (MakeCurrent_ok e 0 = true ->
      current_context (gl (world_of (android_egl_context_backup e w))) = 0)
  /\ swap_interval (gl (world_of (android_egl_context_backup e w)))
     = swap_interval (gl w)
  /\ backup_frame w (world_of (android_egl_context_backup e w)).
Proof.
  intros Hw. destruct w as [vd ow st g ps rs q]; cbn in Hw; subst ow.
  unfold android_egl_context_backup, saved_context, window_backup_done, backup_frame.
  unfold_monad. cbn. split_ifs; repeat split; intros; try reflexivity; discriminate.
Qed.

Lemma X1_witness :
  Android_Window sample_world = Some sample_window
  /\ saved_context (world_of (android_egl_context_backup quiet_env sample_world))
     = Some 5
  /\ current_context (gl (world_of (android_egl_context_backup quiet_env sample_world)))
     = 0.
Proof.
  split; [reflexivity|].
  destruct (X1_backup_saves_and_detaches quiet_env sample_world sample_window eq_refl)
    as (H1 & _ & H3 & _).
  split; [exact H1 | apply H3; reflexivity].
Defined.

(** X2.  Without a window neither context function does anything: the
    state is the one it was given and no platform call is made. *)
Theorem X2_no_window_no_effect (e : Env) (w : World) :
  Android_Window w = None ->
  android_egl_context_backup e w = (tt, w, [Enter_context_backup])
  /\ android_egl_context_restore e w = (tt, w, [Enter_context_restore]).
Proof.
  intros Hw. unfold android_egl_context_backup, android_egl_context_restore.
  unfold_monad. rewrite Hw. split; reflexivity.
Qed.

Lemma X2_witness :
  Android_Window (boot None true (mkGL 5 1)) = None
  /\ android_egl_context_restore quiet_env (boot None true (mkGL 5 1))
     = (tt, boot None true (mkGL 5 1), [Enter_context_restore]).
Proof.
  split; [reflexivity|].
  apply (X2_no_window_no_effect quiet_env (boot None true (mkGL 5 1))). reflexivity.
Defined.

(** X3.  Backup then restore is a round trip when the platform still
    accepts the saved context: whatever happened in between to anything
    but the window, the restore makes current again the context that was
    current at the backup, keeps it in the window data, clears the backup
    mark, creates no context, and pushes a device reset only if the error
    query reports EGL_BAD_ALLOC or EGL_BAD_MATCH. *)
Theorem X3_backup_restore_round_trip (e1 e2 : Env) (w w2 : World) (win : SDL_Window) :
  Android_Window w = Some win ->
  Android_Window w2 = Android_Window (world_of (android_egl_context_backup e1 w)) ->
  MakeCurrent_ok e2 (current_context (gl w)) = true ->
  current_context (gl (world_of (android_egl_context_restore e2 w2)))
  = current_context (gl w)
  /\ saved_context (world_of (android_egl_context_restore e2 w2))
     = Some (current_context (gl w))
  /\ window_backup_done (world_of (android_egl_context_restore e2 w2)) = Some 0
  /\ count is_create_context (out_of (android_egl_context_restore e2 w2)) = 0%nat
  /\ count is_device_reset (out_of (android_egl_context_restore e2 w2))
     = (if egl_error_is_bad e2 then 1%nat else 0%nat).
Proof.
  intros Hw Hw2 Hok.
  destruct (X1_backup_saves_and_detaches e1 w win Hw) as (Hsaved & _).
  unfold saved_context in Hsaved. rewrite <- Hw2 in Hsaved.
  destruct w2 as [vd2 [win2|] st2 g2 ps2 rs2 q2]; cbn in Hsaved; [|discriminate].
  inversion Hsaved as [Hctx]. clear Hsaved Hw2.
  unfold egl_error_is_bad, saved_context, window_backup_done.
  restore_cases e2 win2; try congruence; repeat split; try reflexivity;
    cbn; congruence.
Qed.

Lemma X3_witness :
  Android_Window sample_world = Some sample_window
  /\ MakeCurrent_ok quiet_env (current_context (gl sample_world)) = true
  /\ current_context
       (gl (world_of (android_egl_context_restore quiet_env
                        (world_of (android_egl_context_backup quiet_env sample_world)))))
     = 5.
Proof.
  split; [reflexivity|]. split; [reflexivity|].
  destruct (X3_backup_restore_round_trip quiet_env quiet_env sample_world
              (world_of (android_egl_context_backup quiet_env sample_world))
              sample_window eq_refl eq_refl eq_refl) as (H & _).
  exact H.
Defined.

(** ** The refresh rate *)

Lemma scan_display_modes_perm l1 l2 :
  Permutation l1 l2 ->
  forall m, scan_display_modes l1 m = scan_display_modes l2 m.
Proof.
  induction 1 as [|x l1 l2 _ IH|x y l|l1 l2 l3 _ IH1 _ IH2]; intros m; cbn.
  - reflexivity.
  - apply IH.
  - f_equal.
    destruct (refresh_rate y >? m) eqn:E1; destruct (refresh_rate x >? m) eqn:E2;
      try rewrite E1; try rewrite E2;
      repeat match goal with
             | |- context [?a >? ?b] => destruct (a >? b) eqn:?
             end; try reflexivity; lia.
  - rewrite IH1. apply IH2.
Qed.

(** X4.  The rate the restore settles on does not depend on the order in
    which the display lists its modes. *)
Theorem X4_refresh_rate_ignores_mode_order (d : SDL_VideoDisplay)
        (modes : list SDL_DisplayMode) :
  Permutation (display_modes d) modes ->
  max_refresh_rate (Some (with_modes d modes)) = max_refresh_rate (Some d).
Proof.
  intros Hp. unfold max_refresh_rate, with_modes. cbn [desktop_mode display_modes].
  rewrite (scan_display_modes_perm _ _ Hp). reflexivity.
Qed.

Lemma X4_witness :
  Permutation
    (display_modes (mkDisplay (mkMode 1080 1920 60) [mkMode 1 1 90; mkMode 2 2 120]))
    [mkMode 2 2 120; mkMode 1 1 90]
  /\ max_refresh_rate
       (Some (with_modes (mkDisplay (mkMode 1080 1920 60) [mkMode 1 1 90; mkMode 2 2 120])
                         [mkMode 2 2 120; mkMode 1 1 90]))
     = 120.
Proof.
  assert (H : Permutation
                (display_modes (mkDisplay (mkMode 1080 1920 60)
                                          [mkMode 1 1 90; mkMode 2 2 120]))
                [mkMode 2 2 120; mkMode 1 1 90]) by apply perm_swap.
  split; [exact H|].
  rewrite (X4_refresh_rate_ignores_mode_order _ _ H). reflexivity.
Defined.

Lemma restore_positive_rate e : emits positive_rate (android_egl_context_restore e).
Proof.
  intros w. eapply Forall_impl; [|apply (restore_pushes_rate e w)].
  intros o Ho. destruct o; try exact I. cbn in *. subst.
  apply float_of_int_positive, max_refresh_rate_positive.
Qed.

Lemma pumps_positive_rate v m a : Forall positive_rate (snd (step v m a)).
Proof.
  apply step_forall; intros;
    unfold Android_PumpEvents_Blocking, Android_PumpEvents_NonBlocking,
      Blocking_before_wait, Blocking_from_wait, Blocking_resumed,
      Blocking_not_paused, detect_broken_play_state;
    unfold_calls;
    repeat first
      [ emits_step
      | apply restore_positive_rate
      | apply backup_emits;
        [ | let o := fresh "o" in intros o ?; destruct o; try contradiction ] ];
    exact I.
Qed.

(** X5.  In any run of either pump, from any state, every resolution
    pushed to the windowing layer carries a positive refresh rate, whatever
    the display reports. *)
Theorem X5_pushed_rate_is_positive (v : Variant) (m : Machine) (acts : list Action) :
  Forall positive_rate (snd (run v m acts)).
Proof.
  apply run_forall. apply pumps_positive_rate.
Qed.

(** ** One pump call, property by property *)

Lemma count_body (body : Obs -> Prop) (p : Obs -> bool) rest :
  (forall o, body o -> p o = false) ->
  Forall body rest -> length (filter p rest) = 0%nat.
Proof.
  intros Hp. induction 1 as [|o l Ho _ IH]; cbn; [reflexivity|].
  rewrite (Hp o Ho). exact IH.
Qed.

(** Turn what is known of a context function's calls into counts. *)
Ltac count_bodies p :=
  repeat match goal with
         | H : Forall restore_body ?rest |- _ =>
             lazymatch goal with
             | _ : length (filter p rest) = 0%nat |- _ => fail
             | _ => pose proof (count_body restore_body p rest
                                  ltac:(intros [] ?; try contradiction; reflexivity) H)
             end
         | H : Forall backup_body ?rest |- _ =>
             lazymatch goal with
             | _ : length (filter p rest) = 0%nat |- _ => fail
             | _ => pose proof (count_body backup_body p rest
                                  ltac:(intros [] ?; try contradiction; reflexivity) H)
             end
         end.

Ltac count_run :=
  unfold count;
  repeat first
    [ rewrite filter_app
    | rewrite length_app
    | progress cbn [filter length app is_backup is_restore is_start_text_input
                    is_did_enter_foreground is_did_enter_background Nat.add]
    | match goal with
      | H : length (filter ?p ?rest) = 0%nat |- context [length (filter ?p ?rest)] =>
          rewrite H
      end ].

(** X6.  A call of either pump in the foreground with no pause signal
    pending changes nothing: the state is the one it was given, and all it
    records is the failed poll of the Pause semaphore, the corrective
    audio cycle if the detector fires, and its return. *)
Theorem X6_idle_call_changes_nothing (v : Variant) (w : World) (e : Env) :
  isPaused (videodata w) = false ->
  isPausing (videodata w) = false ->
  PauseSem w = 0%nat ->
  step v (mkMachine w AppCode) (PumpEvents e) = (mkMachine w AppCode, idle_output e).
Proof.
  intros Hp Hq Hs.
  destruct w as [[paused pausing audio] win st g ps rs q].
  cbn in Hp, Hq, Hs; subst paused pausing ps. unfold idle_output.
  destruct v; cbn [step thread world]; unfold_pumps; unfold_monad; pump_cbn;
    pump_cases; reflexivity.
Qed.

Lemma X6_witness :
  isPaused (videodata sample_world) = false
  /\ isPausing (videodata sample_world) = false
  /\ PauseSem sample_world = 0%nat
  /\ step NonBlocking (mkMachine sample_world AppCode) (PumpEvents quiet_env)
     = (mkMachine sample_world AppCode, idle_output quiet_env).
Proof.
  split; [reflexivity|]. split; [reflexivity|]. split; [reflexivity|].
  apply (X6_idle_call_changes_nothing NonBlocking sample_world quiet_env);
    reflexivity.
Defined.

(** X7.  Signal accounting of one call of either pump: it takes one Pause
    signal only when it is neither paused nor pending (a pending call does
    not poll), and one Resume signal only when it is paused; a Resume
    signal raised in the foreground stays in the semaphore. *)
Theorem X7_signal_accounting (v : Variant) (w : World) (e : Env) :
  PauseSem (world (fst (step v (mkMachine w AppCode) (PumpEvents e))))
  = (if isPaused (videodata w) || isPausing (videodata w)
     then PauseSem w else pred (PauseSem w))
  /\ ResumeSem (world (fst (step v (mkMachine w AppCode) (PumpEvents e))))
     = (if isPaused (videodata w) then pred (ResumeSem w) else ResumeSem w).
Proof.
  destruct w as [[paused pausing audio] win st g ps rs q].
  destruct v; cbn [step thread world]; unfold_pumps; unfold_monad; pump_cbn;
    destruct paused, pausing; pump_cbn; pump_cases; split; reflexivity.
Qed.

(** X8.  A call of either pump made while not paused only ever appends to
    the event queue, and what it appends is the background announcement
    (window minimized, WillEnterBackground, DidEnterBackground, in that
    order) exactly when it takes a Pause signal, and nothing otherwise. *)
Theorem X8_background_announcement (v : Variant) (w : World) (e : Env) :
  isPaused (videodata w) = false ->
  event_queue (world (fst (step v (mkMachine w AppCode) (PumpEvents e))))
  = event_queue w
    ++ (if isPausing (videodata w) then []
        else match PauseSem w with
             | O => []
             | S _ => background_announcement
             end).
Proof.
  intros Hp.
  destruct w as [[paused pausing audio] win st g ps rs q].
  cbn in Hp; subst paused. unfold background_announcement.
  destruct v; cbn [step thread world]; unfold_pumps; unfold_monad; pump_cbn;
    destruct pausing; pump_cbn; pump_cases;
    rewrite <- ?app_assoc, ?app_nil_r; reflexivity.
Qed.

Lemma X8_witness :
  isPaused (videodata sample_world) = false
  /\ event_queue
       (world (fst (run Blocking (mkMachine sample_world AppCode)
                        [nativePause; PumpEvents quiet_env])))
     = background_announcement.
Proof.
  split; [reflexivity|].
  apply (X8_background_announcement Blocking
           (set_PauseSem 1 sample_world) quiet_env).
  reflexivity.
Defined.

(** X9.  A call of either pump that finds the machine paused and a Resume
    signal raised returns in the foreground: the pause flag is clear, the
    foreground announcement (WillEnterForeground, DidEnterForeground,
    window restored, in that order) is appended to the queue, followed only
    by device resets; the context is restored once unless the context is
    external or a quit event is queued, and not at all then; and text
    input is started again exactly when it is active, restored or not. *)
Theorem X9_resume_call (v : Variant) (w : World) (e : Env) :
  isPaused (videodata w) = true ->
  (0 < ResumeSem w)%nat ->
  let r := step v (mkMachine w AppCode) (PumpEvents e) in
  thread (fst r) = AppCode
  /\ isPaused (videodata (world (fst r))) = false
  /\ (exists k, event_queue (world (fst r))
               = event_queue w ++ foreground_announcement
                 ++ repeat SDL_RENDER_DEVICE_RESET k)
  /\ count is_restore (snd r)
     = (if negb (SDL_IsVideoContextExternal e) && negb (quit_pending w)
        then 1%nat else 0%nat)
  /\ count is_start_text_input (snd r)
     = (if SDL_IsTextInputActive e then 1%nat else 0%nat).
Proof.
  intros Hp Hr. cbv zeta.
  destruct w as [[paused pausing audio] win st g ps rs q].
  cbn in Hp, Hr; subst paused. destruct rs as [|rs]; [lia|].
  unfold quit_pending, foreground_announcement. cbn [event_queue].
  destruct (SDL_IsVideoContextExternal e) eqn:Eext;
    destruct (existsb (SDL_EventType_eqb SDL_QUIT) q) eqn:Equit;
    destruct (SDL_IsTextInputActive e) eqn:Etext.
  all: destruct v; cbn [step thread world]; unfold_pumps; unfold_monad; pump_cbn;
    rewrite ?Eext, ?Etext; pump_cbn.
  all: pump_cases.
  all: repeat match goal with
              | H : context [existsb _ (_ ++ _)] |- _ =>
                  rewrite existsb_app in H; cbn in H;
                  rewrite ?orb_false_r, ?Equit in H; cbn in H
              end; try discriminate.
  all: count_bodies is_restore; count_bodies is_start_text_input.
  all: repeat split; try reflexivity; try (count_run; reflexivity).
  all: try (eexists; rewrite <- ?app_assoc; cbn; reflexivity).
  all: try (exists 0%nat; cbn; rewrite <- ?app_assoc, ?app_nil_r; reflexivity).
Qed.

Lemma X9_witness :
  isPaused (videodata (set_ResumeSem 1 paused_world)) = true
  /\ (0 < ResumeSem (set_ResumeSem 1 paused_world))%nat
  /\ count is_restore
       (snd (step Blocking (mkMachine (set_ResumeSem 1 paused_world) AppCode)
                  (PumpEvents quiet_env))) = 1%nat.
Proof.
  split; [reflexivity|]. split; [cbn; lia|].
  destruct (X9_resume_call Blocking (set_ResumeSem 1 paused_world) quiet_env
              eq_refl) as (_ & _ & _ & H & _).
  - cbn; lia.
  - exact H.
Defined.

(** X10.  A pump call backs the context up only when it finds the machine
    paused and the context is not external, and under the NonBlocking pump
    only when the backup flag set by the commitment is still up; a paused
    NonBlocking call always leaves the flag down.  So the call that
    commits a pause never backs up itself. *)
Theorem X10_backup_gate (v : Variant) (w : World) (e : Env) :
  count is_backup (snd (step v (mkMachine w AppCode) (PumpEvents e)))
  = (if backs_up v e w then 1%nat else 0%nat)
  /\ (v = NonBlocking -> isPaused (videodata w) = true ->
      backup_context
        (statics (world (fst (step v (mkMachine w AppCode) (PumpEvents e)))))
      = false).
Proof.
  destruct w as [[paused pausing audio] win [sv pw ph pr flag] g ps rs q].
  unfold backs_up. cbn [videodata isPaused statics backup_context].
  destruct (SDL_IsVideoContextExternal e) eqn:Eext.
  all: destruct v; cbn [step thread world]; unfold_pumps; unfold_monad; pump_cbn;
    rewrite ?Eext; pump_cbn.
  all: destruct paused, pausing, flag; pump_cbn; pump_cases.
  all: count_bodies is_backup.
  all: split; [count_run; reflexivity | intros; cbn; congruence].
Qed.

(** ** Monitors once more: prefixes and stable stretches *)

Lemma monitor_prefix {S : Type} (delta : S -> Obs -> option S) l1 :
  forall s x l2 s',
    monitor delta s (l1 ++ x :: l2) = Some s' ->
    exists s1 s2, monitor delta s l1 = Some s1 /\ delta s1 x = Some s2.
Proof.
  induction l1 as [|o l1 IH]; intros s x l2 s' H; cbn in H.
  - destruct (delta s x) as [s2|] eqn:E; [|discriminate].
    exists s, s2. split; [reflexivity | exact E].
  - cbn. destruct (delta s o) as [s0|]; [|discriminate]. eapply IH; eauto.
Qed.

Lemma monitor_stable {S : Type} (delta : S -> Obs -> option S) s l1 l2 :
  Forall (fun o => delta s o = Some s) l1 ->
  monitor delta s (l1 ++ l2) = monitor delta s l2.
Proof.
  induction 1 as [|o l1 Ho _ IH]; cbn; [reflexivity|].
  rewrite Ho. exact IH.
Qed.

(** ** The activity mutex *)

Lemma mutex_monitor_state l :
  forall h h', monitor mutex_discipline h l = Some h' -> h' = mutex_held h l.
Proof.
  induction l as [|o l IH]; intros h h' H; cbn in H.
  - inversion H. reflexivity.
  - destruct (mutex_discipline h o) as [h1|] eqn:E; [|discriminate].
    specialize (IH _ _ H). subst h'.
    destruct o; destruct h; cbn in E; inversion E; subst; reflexivity.
Qed.

Lemma restore_body_under_lock rest :
  Forall restore_body rest ->
  Forall (fun o => mutex_discipline true o = Some true) rest.
Proof.
  apply Forall_impl. intros o Ho. destruct o; try contradiction; reflexivity.
Qed.

Lemma backup_body_under_lock rest :
  Forall backup_body rest ->
  Forall (fun o => mutex_discipline true o = Some true) rest.
Proof.
  apply Forall_impl. intros o Ho. destruct o; try contradiction; reflexivity.
Qed.

Ltac mutex_run :=
  repeat match goal with
         | H : Forall backup_body _ |- _ => apply backup_body_under_lock in H
         | H : Forall restore_body _ |- _ => apply restore_body_under_lock in H
         end;
  repeat first
    [ rewrite monitor_stable by assumption
    | rewrite <- app_assoc
    | progress cbn [monitor mutex_discipline is_context_call needs_mutex_free app] ].

Lemma step_mutex v m a :
  monitor mutex_discipline false (snd (step v m a)) = Some false.
Proof.
  destruct m as [w t].
  destruct a; cbn [step app_acts thread world]; try (destruct t; reflexivity).
  - destruct t; [|reflexivity].
    destruct w as [[paused pausing audio] win st g ps rs q].
    destruct v; unfold_pumps; unfold_monad; pump_cbn;
      pump_cases; mutex_run; reflexivity.
  - destruct t as [|e ext]; [reflexivity|].
    destruct w as [[paused pausing audio] win st g ps rs q].
    unfold_pumps; unfold_monad; pump_cbn;
      pump_cases; mutex_run; reflexivity.
Qed.

Lemma run_mutex v m acts :
  monitor mutex_discipline false (snd (run v m acts)) = Some false.
Proof.
  destruct (run_monitor mutex_discipline v (fun _ h => h = false)) with
    (acts := acts) (m := m) (s := false) as (h & Hm & ->); [|reflexivity|exact Hm].
  intros m0 a0 s0 ->. exists false. split; [apply step_mutex | reflexivity].
Qed.

(** X11.  In any run of either pump, from any state: the context functions
    and every platform call that reads, creates or binds a GL context run
    with Android_ActivityMutex held; the mutex is never taken while held
    nor released while free; it is free whenever the pump calls the
    blocking wait, comes back from it or returns; and it is free at the end
    of the run. *)
Theorem X11_mutex_discipline (v : Variant) (m : Machine) (acts : list Action)
        (l1 l2 : list Obs) (x : Obs) :
  snd (run v m acts) = l1 ++ x :: l2 ->
  (is_context_call x = true -> mutex_held false l1 = true)
  /\ (x = CUnlockMutex -> mutex_held false l1 = true)
  /\ (needs_mutex_free x = true -> mutex_held false l1 = false)
  /\ mutex_held false (snd (run v m acts)) = false.
Proof.
  intros Heq. pose proof (run_mutex v m acts) as Hm.
  split; [|split; [|split]].
  4:{ symmetry. apply mutex_monitor_state. exact Hm. }
  all: rewrite Heq in Hm;
    destruct (monitor_prefix _ _ _ _ _ _ Hm) as (h1 & h2 & H1 & H2);
    apply mutex_monitor_state in H1; rewrite <- H1; intros Hx.
  - destruct x; try discriminate; destruct h1; cbn in H2; congruence.
  - subst x. destruct h1; cbn in H2; congruence.
  - destruct x; try discriminate; destruct h1; cbn in H2; congruence.
Qed.

Lemma X11_witness :
  is_context_call Enter_context_backup = true
  /\ mutex_held false
       [CSemTryWait Android_PauseSem 0; CGL_GetSwapInterval 1;
        CSendWindowEvent SDL_WINDOWEVENT_MINIMIZED;
        CSendAppEvent SDL_APP_WILLENTERBACKGROUND;
        CSendAppEvent SDL_APP_DIDENTERBACKGROUND;
        CSemValue Android_PauseSem 0; Pump_return;
        CSemValue Android_PauseSem 0; Store_isPaused true; Pump_return;
        CLockMutex] = true.
Proof.
  split; [reflexivity|].
  refine (proj1 (X11_mutex_discipline Blocking (mkMachine sample_world AppCode)
                   sample_cycle _ _ Enter_context_backup _) eq_refl).
  vm_compute. reflexivity.
Defined.

(** ** The swap interval a restore asks for *)

Lemma swap_monitor_state l :
  forall s s', monitor swap_provenance s l = Some s' -> s' = last_swap_read s l.
Proof.
  induction l as [|o l IH]; intros s s' H; cbn in H.
  - inversion H. reflexivity.
  - destruct (swap_provenance s o) as [s1|] eqn:E; [|discriminate].
    specialize (IH _ _ H). subst s'.
    destruct o; cbn in E; try (inversion E; subst; reflexivity).
    destruct ((i =? s) || (i =? 0)); inversion E; subst; reflexivity.
Qed.

Lemma restore_swap_calls e w :
  exists w' out,
    android_egl_context_restore e w = (tt, w', out)
    /\ restore_frame w w'
    /\ forall s, s = saved_swap_interval (statics w) ->
                 forall l, monitor swap_provenance s (out ++ l)
                           = monitor swap_provenance s l.
Proof.
  destruct w as [vd [win|] st g ps rs q].
  2:{ do 2 eexists. split; [reflexivity|]. split.
      - repeat split. exists 0%nat. cbn. rewrite app_nil_r. reflexivity.
      - intros s _ l. reflexivity. }
  restore_cases e win;
    (do 2 eexists; split; [reflexivity|]; split;
     [ unfold restore_frame; cbn; repeat split;
       first [ exists 0%nat; cbn; rewrite ?app_nil_r; reflexivity
             | exists 1%nat; cbn; reflexivity
             | exists 2%nat; cbn; rewrite <- ?app_assoc; reflexivity ]
     | intros s -> l; cbn -[Z.eqb];
       repeat (rewrite ?Z.eqb_refl, ?orb_true_r; cbn -[Z.eqb]); reflexivity ]).
Qed.

Lemma backup_swap_calls rest :
  Forall backup_body rest ->
  forall s, Forall (fun o => swap_provenance s o = Some s) rest.
Proof.
  intros H s. eapply Forall_impl; [|exact H].
  intros o Ho. destruct o; try contradiction; reflexivity.
Qed.

(** As [context_call], with what the restore asks of the swap interval. *)
Ltac swap_context_call :=
  match goal with
  | |- context [android_egl_context_restore ?e ?w] =>
      let w' := fresh "w'" in
      let out := fresh "out" in
      let Heq := fresh "Heq" in
      let Hvd := fresh "Hvd" in
      let Hps := fresh "Hps" in
      let Hrs := fresh "Hrs" in
      let Hsv := fresh "Hsv" in
      let Hbc := fresh "Hbc" in
      let Hq := fresh "Hq" in
      let Hout := fresh "Hout" in
      let vd' := fresh "vd'" in
      let win' := fresh "win'" in
      let sv' := fresh "sv'" in
      let pw' := fresh "pw'" in
      let ph' := fresh "ph'" in
      let pr' := fresh "pr'" in
      let bc' := fresh "bc'" in
      let g' := fresh "g'" in
      let ps' := fresh "ps'" in
      let rs' := fresh "rs'" in
      let q' := fresh "q'" in
      let k := fresh "k" in
      destruct (restore_swap_calls e w)
        as (w' & out & Heq & (Hvd & Hps & Hrs & Hsv & Hbc & k & Hq) & Hout);
      rewrite Heq; clear Heq;
      destruct w' as [vd' win' [sv' pw' ph' pr' bc'] g' ps' rs' q'];
      cbn in Hvd, Hps, Hrs, Hsv, Hbc, Hq, Hout;
      subst vd' ps' rs' sv' bc' q'; pump_cbn
  end.

Ltac swap_cases :=
  repeat first
    [ swap_context_call
    | context_call
    | match goal with
      | |- context [if ?b then _ else _] => destruct b eqn:?; pump_cbn
      | |- context [match ?n with O => _ | S _ => _ end] =>
          destruct n eqn:?; pump_cbn
      end ].

Ltac swap_run :=
  repeat first
    [ match goal with
      | H : forall s, s = ?sv -> forall l, monitor swap_provenance s (?out ++ l) = _
        |- context [monitor swap_provenance ?sv (?out ++ _)] =>
          rewrite (H sv eq_refl)
      end
    | rewrite monitor_stable by (apply backup_swap_calls; assumption)
    | rewrite <- app_assoc
    | progress cbn [monitor swap_provenance app] ].

Lemma step_swap v m a :
  monitor swap_provenance (saved_swap_interval (statics (world m)))
          (snd (step v m a))
  = Some (saved_swap_interval (statics (world (fst (step v m a))))).
Proof.
  destruct m as [w t].
  destruct a; cbn [step app_acts thread world]; try (destruct t; reflexivity).
  - destruct t; [|reflexivity].
    destruct w as [[paused pausing audio] win [sv pw ph pr flag] g ps rs q].
    destruct v; unfold_pumps; unfold_monad; pump_cbn;
      swap_cases; swap_run; reflexivity.
  - destruct t as [|e ext]; [reflexivity|].
    destruct w as [[paused pausing audio] win [sv pw ph pr flag] g ps rs q].
    unfold_pumps; unfold_monad; pump_cbn;
      swap_cases; swap_run; reflexivity.
Qed.

Lemma run_swap v m acts :
  monitor swap_provenance (saved_swap_interval (statics (world m)))
          (snd (run v m acts))
  = Some (saved_swap_interval (statics (world (fst (run v m acts))))).
Proof.
  destruct (run_monitor swap_provenance v
              (fun m s => s = saved_swap_interval (statics (world m))))
    with (acts := acts) (m := m) (s := saved_swap_interval (statics (world m)))
    as (s' & Hm & ->); [|reflexivity|exact Hm].
  intros m0 a0 s0 ->. eexists. split; [apply step_swap | reflexivity].
Qed.

(** X12.  In any run of either pump, from any state: every swap interval
    passed to SDL_GL_SetSwapInterval is either 0 or the interval most
    recently read with SDL_GL_GetSwapInterval earlier in the run (the
    value of saved_swap_interval at the start if none was read), and at
    the end saved_swap_interval holds that most recent reading. *)
Theorem X12_swap_interval_provenance (v : Variant) (m : Machine) (acts : list Action)
        (l1 l2 : list Obs) (i r : Z) :
  snd (run v m acts) = l1 ++ CGL_SetSwapInterval i r :: l2 ->
  (i = 0 \/ i = last_swap_read (saved_swap_interval (statics (world m))) l1)
  /\ saved_swap_interval (statics (world (fst (run v m acts))))
     = last_swap_read (saved_swap_interval (statics (world m))) (snd (run v m acts)).
Proof.
  intros Heq. pose proof (run_swap v m acts) as Hm. split.
  - rewrite Heq in Hm.
    destruct (monitor_prefix _ _ _ _ _ _ Hm) as (s1 & s2 & H1 & H2).
    apply swap_monitor_state in H1. rewrite <- H1.
    cbn in H2. destruct (i =? s1) eqn:E1; [right; apply Z.eqb_eq; exact E1|].
    destruct (i =? 0) eqn:E2; [left; apply Z.eqb_eq; exact E2 | discriminate].
  - apply swap_monitor_state. exact Hm.
Qed.

Lemma X12_witness :
  snd (run Blocking (mkMachine sample_world AppCode) sample_cycle)
  = firstn 34 (snd (run Blocking (mkMachine sample_world AppCode) sample_cycle))
    ++ CGL_SetSwapInterval 1 0
    :: skipn 35 (snd (run Blocking (mkMachine sample_world AppCode) sample_cycle))
  /\ (1 = 0
      \/ 1 = last_swap_read
               (saved_swap_interval (statics (world (mkMachine sample_world AppCode))))
               (firstn 34 (snd (run Blocking (mkMachine sample_world AppCode)
                                    sample_cycle)))).
Proof.
  assert (H : snd (run Blocking (mkMachine sample_world AppCode) sample_cycle)
              = firstn 34 (snd (run Blocking (mkMachine sample_world AppCode) sample_cycle))
                ++ CGL_SetSwapInterval 1 0
                :: skipn 35 (snd (run Blocking (mkMachine sample_world AppCode)
                                      sample_cycle)))
    by (vm_compute; reflexivity).
  split; [exact H|].
  exact (proj1 (X12_swap_interval_provenance Blocking (mkMachine sample_world AppCode)
                  sample_cycle _ _ 1 0 H)).
Defined.

(** ** Orderings from any monitor *)
Section Refill.
Variable S : Type.
Variable delta : S -> Obs -> option S.
Variables use grant : Obs -> bool.
Variable spent : S -> bool.
Hypothesis use_spends :
  forall s o s', delta s o = Some s' -> use o = true ->
                 spent s = false /\ spent s' = true.
Hypothesis only_grant_refills :
  forall s o s', delta s o = Some s' -> grant o = false ->
                 spent s = true -> spent s' = true.

Lemma refill_stays l :
  forall s s',
    monitor delta s l = Some s' -> spent s = true ->
    (forall g, In g l -> grant g = false) -> spent s' = true.
Proof.
  induction l as [|o l IH]; intros s s' Hm Hs Hg; cbn in Hm.
  - inversion Hm; subst. exact Hs.
  - destruct (delta s o) as [s1|] eqn:E; [|discriminate].
    apply (IH s1 s' Hm).
    + eapply only_grant_refills; eauto. apply Hg. left. reflexivity.
    + intros g Hin. apply Hg. right. exact Hin.
Qed.

Lemma refill_never_before s l s' :
  spent s = true -> monitor delta s l = Some s' -> never_before use grant l.
Proof.
  intros Hs Hm l1 x l2 -> Hx.
  destruct (grant_somewhere grant l1) as [H | H]; [exact H | exfalso].
  rewrite monitor_app in Hm.
  destruct (monitor delta s l1) as [s1|] eqn:E1; [|discriminate].
  pose proof (refill_stays l1 s s1 E1 Hs H) as Hs1.
  cbn in Hm. destruct (delta s1 x) as [s2|] eqn:E2; [|discriminate].
  destruct (use_spends _ _ _ E2 Hx) as [Hf _]. congruence.
Qed.

Lemma refill_never_twice s l s' :
  monitor delta s l = Some s' -> never_twice use grant l.
Proof.
  intros Hm l1 x l2 y l3 -> Hx Hy.
  rewrite monitor_app in Hm.
  destruct (monitor delta s l1) as [s1|]; [|discriminate].
  cbn in Hm. destruct (delta s1 x) as [s2|] eqn:E2; [|discriminate].
  destruct (use_spends _ _ _ E2 Hx) as [_ Hs2].
  eapply (refill_never_before s2 (l2 ++ y :: l3) s' Hs2 Hm); eauto.
Qed.
End Refill.

Section Alternation.
Variables first second : Obs -> bool.
Hypothesis disjoint : forall o, first o = true -> second o = false.

Lemma alternating_orderings b l b' :
  monitor (alternating first second) b l = Some b' ->
  never_twice first second l
  /\ never_twice second first l
  /\ (b = false -> never_before second first l).
Proof.
  assert (Hc : forall (s : bool) o s',
             alternating first second s o = Some s' ->
             (first o = true -> s = false /\ s' = true)
             /\ (second o = true -> s = true /\ s' = false)
             /\ (first o = false -> second o = false -> s' = s)).
  { unfold alternating. intros s o s' H.
    destruct (first o) eqn:E1.
    - rewrite (disjoint _ E1).
      destruct s; [discriminate|]. inversion H; subst.
      repeat split; intros; congruence.
    - destruct (second o) eqn:E2.
      + destruct s; [|discriminate]. inversion H; subst.
        repeat split; intros; congruence.
      + inversion H; subst. repeat split; intros; congruence. }
  intros Hm. split; [|split; [|intros ->]].
  - revert Hm. apply refill_never_twice with (spent := fun b => b).
    + intros s o s' H Hu. destruct (Hc s o s' H) as (H1 & _). apply H1. exact Hu.
    + intros s o s' H Hg Hs. destruct (Hc s o s' H) as (H1 & _ & H3).
      destruct (first o) eqn:E1.
      * destruct (H1 eq_refl). congruence.
      * rewrite (H3 eq_refl Hg). exact Hs.
  - revert Hm. apply refill_never_twice with (spent := fun b => negb b).
    + intros s o s' H Hu. destruct (Hc s o s' H) as (_ & H2 & _).
      destruct (H2 Hu); subst. split; reflexivity.
    + intros s o s' H Hg Hs. destruct (Hc s o s' H) as (_ & H2 & H3).
      destruct (second o) eqn:E2.
      * destruct (H2 eq_refl); subst. discriminate.
      * rewrite (H3 Hg eq_refl). exact Hs.
  - revert Hm. apply refill_never_before with (spent := fun b => negb b);
      [ | | reflexivity].
    + intros s o s' H Hu. destruct (Hc s o s' H) as (_ & H2 & _).
      destruct (H2 Hu); subst. split; reflexivity.
    + intros s o s' H Hg Hs. destruct (Hc s o s' H) as (_ & H2 & H3).
      destruct (second o) eqn:E2.
      * destruct (H2 eq_refl); subst. discriminate.
      * rewrite (H3 Hg eq_refl). exact Hs.
Qed.
End Alternation.

(** ** Pausing and resuming the audio devices *)

Lemma restore_body_audio rest :
  Forall restore_body rest ->
  Forall (fun o => forall b, alternating is_audio_pause is_audio_resume b o = Some b) rest.
Proof.
  apply Forall_impl. intros o Ho b. destruct o; try contradiction; reflexivity.
Qed.

Lemma backup_body_audio rest :
  Forall backup_body rest ->
  Forall (fun o => forall b, alternating is_audio_pause is_audio_resume b o = Some b) rest.
Proof.
  apply Forall_impl. intros o Ho b. destruct o; try contradiction; reflexivity.
Qed.

Ltac audio_run :=
  repeat match goal with
         | H : Forall backup_body _ |- _ => apply backup_body_audio in H
         | H : Forall restore_body _ |- _ => apply restore_body_audio in H
         end;
  repeat first
    [ rewrite monitor_skip by assumption
    | rewrite <- app_assoc
    | progress cbn [monitor alternating is_audio_pause is_audio_resume app] ].

Lemma step_audio v m a :
  (v = NonBlocking -> thread m = AppCode) ->
  exists m' o,
    step v m a = (m', o)
    /\ monitor (alternating is_audio_pause is_audio_resume) (audio_paused v m) o
       = Some (audio_paused v m')
    /\ (v = NonBlocking -> thread m' = AppCode).
Proof.
  intros Ht. destruct m as [w t]. cbn [thread] in Ht.
  destruct w as [[paused pausing audio] win [sv pw ph pr flag] g ps rs q].
  destruct a; cbn [step app_acts thread world];
    try (destruct t, v; do 2 eexists; (split; [reflexivity|]); cbn; split; auto; fail).
  - destruct t as [|e' ext'].
    2:{ destruct v; [do 2 eexists; (split; [reflexivity|]); cbn; split;
                     [reflexivity | discriminate] | ].
        specialize (Ht eq_refl). discriminate. }
    destruct v; unfold_pumps; unfold_monad; pump_cbn.
    + destruct paused; pump_cbn; pump_cases;
        (do 2 eexists; (split; [reflexivity|]);
         split; [unfold audio_paused; cbn [thread fst snd]; audio_run; reflexivity
                | discriminate]).
    + destruct paused, flag, audio; pump_cbn; pump_cases;
        (do 2 eexists; (split; [reflexivity|]);
         split; [unfold audio_paused; cbn [thread fst snd world]; audio_run;
                 reflexivity
                | reflexivity]).
  - destruct t as [|e ext].
    1:{ destruct v; do 2 eexists; (split; [reflexivity|]); cbn; split; auto. }
    destruct v; [|specialize (Ht eq_refl); discriminate].
    unfold_pumps; unfold_monad; pump_cbn; pump_cases;
      (do 2 eexists; (split; [reflexivity|]);
       split; [unfold audio_paused; cbn [thread fst snd]; audio_run; reflexivity
              | discriminate]).
Qed.

Lemma run_audio v :
  forall acts m,
    (v = NonBlocking -> thread m = AppCode) ->
    exists b', monitor (alternating is_audio_pause is_audio_resume)
                       (audio_paused v m) (snd (run v m acts)) = Some b'.
Proof.
  intros acts m Ht.
  destruct (run_monitor (alternating is_audio_pause is_audio_resume) v
              (fun m b => b = audio_paused v m
                          /\ (v = NonBlocking -> thread m = AppCode)))
    with (acts := acts) (m := m) (s := audio_paused v m) as (b' & Hm & _).
  - intros m0 a0 s0 [-> Ht0].
    destruct (step_audio v m0 a0 Ht0) as (m1 & o1 & -> & H1 & H2).
    eexists. split; [exact H1 | split; [reflexivity | exact H2]].
  - split; [reflexivity | exact Ht].
  - exists b'. exact Hm.
Qed.

(** X13.  In a run of either pump that starts unpaused, pausing and
    resuming the ANDROIDAUDIO devices take turns, pausing first: the
    devices are never resumed before they were paused, never resumed twice
    without a pause between, never paused twice without a resume
    between. *)
Theorem X13_audio_pause_resume_alternate (v : Variant) (w : World)
        (acts : list Action) :
  isPaused (videodata w) = false ->
  never_before is_audio_resume is_audio_pause (snd (run v (mkMachine w AppCode) acts))
  /\ never_twice is_audio_resume is_audio_pause
       (snd (run v (mkMachine w AppCode) acts))
  /\ never_twice is_audio_pause is_audio_resume
       (snd (run v (mkMachine w AppCode) acts)).
Proof.
  intros Hp.
  destruct (run_audio v acts (mkMachine w AppCode) (fun _ => eq_refl)) as (b' & Hm).
  assert (Hb : audio_paused v (mkMachine w AppCode) = false).
  { unfold audio_paused. destruct v; cbn; [reflexivity|]. rewrite Hp. reflexivity. }
  rewrite Hb in Hm.
  destruct (alternating_orderings is_audio_pause is_audio_resume) with
    (b := false) (l := snd (run v (mkMachine w AppCode) acts)) (b' := b')
    as (H1 & H2 & H3).
  - intros o Ho. destruct o; try discriminate; reflexivity.
  - exact Hm.
  - split; [apply H3; reflexivity | split; assumption].
Qed.

Lemma X13_witness :
  isPaused (videodata sample_world) = false
  /\ never_before is_audio_resume is_audio_pause
       (snd (run NonBlocking (mkMachine sample_world AppCode) nonblocking_cycle)).
Proof.
  split; [reflexivity|].
  exact (proj1 (X13_audio_pause_resume_alternate NonBlocking sample_world
                  nonblocking_cycle eq_refl)).
Defined.

(** ** The flags between two actions *)

(** X14.  In a run of either pump that starts unpaused, isPaused and
    isPausing are never both set between two actions, and the main thread
    is suspended only under the Blocking pump and only while isPaused is
    set. *)
Theorem X14_flags_exclusive (v : Variant) (w : World) (acts : list Action) :
  isPaused (videodata w) = false ->
  let m' := fst (run v (mkMachine w AppCode) acts) in
  isPaused (videodata (world m')) && isPausing (videodata (world m')) = false
  /\ (thread m' <> AppCode ->
      v = Blocking /\ isPaused (videodata (world m')) = true).
Proof.
  intros Hp m'.
  set (p := if isPausing (videodata w) then PAnnounced else PRunning).
  assert (HI : phase_inv v (mkMachine w AppCode) p).
  { subst p. destruct (isPausing (videodata w)) eqn:E; cbn; auto. }
  destruct (run_monitor protocol v (phase_inv v) (step_protocol v) acts _ _ HI)
    as (p' & _ & HI').
  fold m' in HI'. destruct p'; cbn in HI'; try contradiction.
  all: destruct HI' as (H1 & H2 & H3); rewrite H1, H2; split; [reflexivity|].
  all: intros Ht; try congruence.
  - destruct v; [split; reflexivity | exfalso; apply Ht, H3; reflexivity].
  - destruct v; [split; reflexivity | exfalso; apply Ht; tauto].
Qed.

Lemma X14_witness :
  isPaused (videodata sample_world) = false
  /\ isPaused (videodata (world (fst (run Blocking (mkMachine sample_world AppCode)
                                          pause_and_commit))))
     && isPausing (videodata (world (fst (run Blocking (mkMachine sample_world AppCode)
                                              pause_and_commit)))) = false.
Proof.
  split; [reflexivity|].
  exact (proj1 (X14_flags_exclusive Blocking sample_world pause_and_commit eq_refl)).
Defined.

(** ** The audio flag of the NonBlocking pump *)

Lemma NonBlocking_step_audio_gate w a :
  pauseAudio (videodata w) = false ->
  exists w' o,
    step NonBlocking (mkMachine w AppCode) a = (mkMachine w' AppCode, o)
    /\ pauseAudio (videodata w') = false
    /\ Forall (fun x => is_gated_audio_call x = false) o.
Proof.
  intros Ha.
  destruct w as [[paused pausing audio] win [sv pw ph pr flag] g ps rs q].
  cbn in Ha; subst audio.
  destruct a; cbn [step app_acts thread world];
    try (do 2 eexists; split; [reflexivity|]; split; [reflexivity | constructor]; fail).
  unfold_pumps; unfold_monad; pump_cbn.
  destruct paused; pump_cbn; pump_cases;
    (do 2 eexists; split; [reflexivity|]; split; [reflexivity|]);
    rewrite <- ?app_assoc;
    repeat first
      [ apply Forall_nil
      | apply Forall_cons; [reflexivity|]
      | apply Forall_app; split
      | (eapply Forall_impl; [|eassumption]);
        intros [] ?; try contradiction; reflexivity ].
Qed.

(** X15.  With the pauseAudio flag of the video data clear, a run of the
    NonBlocking pump never pauses or resumes the ANDROIDAUDIO or OpenSL ES
    devices, whatever pauses and resumes it goes through; the flag itself
    is never written. *)
Theorem X15_nonblocking_audio_gate (w : World) (acts : list Action) :
  pauseAudio (videodata w) = false ->
  Forall (fun o => is_gated_audio_call o = false)
         (snd (run NonBlocking (mkMachine w AppCode) acts))
  /\ pauseAudio (videodata (world (fst (run NonBlocking (mkMachine w AppCode) acts))))
     = false.
Proof.
  revert w. induction acts as [|a acts IH]; intros w Ha; cbn [run].
  - split; [constructor | exact Ha].
  - destruct (NonBlocking_step_audio_gate w a Ha) as (w1 & o1 & -> & Ha1 & Ho1).
    destruct (IH w1 Ha1) as [Ho2 Ha2].
    destruct (run NonBlocking (mkMachine w1 AppCode) acts) as [m2 o2].
    cbn [fst snd] in *. split; [apply Forall_app; split; assumption | exact Ha2].
Qed.

Lemma X15_witness :
  pauseAudio (videodata (boot (Some sample_window) false (mkGL 5 1))) = false
  /\ Forall (fun o => is_gated_audio_call o = false)
            (snd (run NonBlocking
                      (mkMachine (boot (Some sample_window) false (mkGL 5 1)) AppCode)
                      nonblocking_cycle)).
Proof.
  split; [reflexivity|].
  exact (proj1 (X15_nonblocking_audio_gate
                  (boot (Some sample_window) false (mkGL 5 1))
                  nonblocking_cycle eq_refl)).
Defined.

(** ** The swap interval after a restore *)

(** X16.  With a window, a restore leaves the swap interval at the saved
    value when the platform accepts it, at 0 when the platform refuses the
    saved value but accepts 0, and where it was when it refuses both; it
    never writes the saved value itself. *)
Theorem X16_restore_swap_interval (e : Env) (w : World) (win : SDL_Window) :
  Android_Window w = Some win ->
  let saved := saved_swap_interval (statics w) in
  let w' := world_of (android_egl_context_restore e w) in
  (SetSwapInterval_ok e saved = true -> swap_interval (gl w') = saved)
  /\ (SetSwapInterval_ok e saved = false -> SetSwapInterval_ok e 0 = true ->
      swap_interval (gl w') = 0)
  /\ (SetSwapInterval_ok e saved = false -> SetSwapInterval_ok e 0 = false ->
      swap_interval (gl w') = swap_interval (gl w))
  /\ saved_swap_interval (statics w') = saved.
Proof.
  intros Hw. destruct w as [vd ow st g ps rs q]; cbn in Hw; subst ow. cbv zeta.
  restore_cases e win; repeat split; intros; cbn;
    repeat match goal with
           | H : negb (_ =? 0) = false |- _ =>
               apply negb_false_iff, Z.eqb_eq in H
           end;
    congruence.
Qed.

Lemma X16_witness :
  Android_Window sample_world = Some sample_window
  /\ SetSwapInterval_ok quiet_env (saved_swap_interval (statics sample_world)) = true
  /\ swap_interval (gl (world_of (android_egl_context_restore quiet_env sample_world)))
     = saved_swap_interval (statics sample_world).
Proof.
  split; [reflexivity|]. split; [reflexivity|].
  destruct (X16_restore_swap_interval quiet_env sample_world sample_window eq_refl)
    as (H & _).
  apply H. reflexivity.
Defined.

(** ** The pixel format *)

Lemma restore_valid_format e : emits valid_format (android_egl_context_restore e).
Proof.
  unfold android_egl_context_restore. unfold_calls. unfold when.
  repeat first
    [ match goal with
      | |- emits _ (if ?b then _ else _) => destruct b eqn:?
      end
    | emits_step ]; try exact I.
  cbn. split; [lia | reflexivity].
Qed.

Lemma pumps_valid_format v m a : Forall valid_format (snd (step v m a)).
Proof.
  apply step_forall; intros;
    unfold Android_PumpEvents_Blocking, Android_PumpEvents_NonBlocking,
      Blocking_before_wait, Blocking_from_wait, Blocking_resumed,
      Blocking_not_paused, detect_broken_play_state;
    unfold_calls;
    repeat first
      [ emits_step
      | apply restore_valid_format
      | apply backup_emits;
        [ | let o := fresh "o" in intros o ?; destruct o; try contradiction ] ];
    exact I.
Qed.

(** X17.  In any run of either pump, from any state, every pixel format
    pushed to the platform is positive and is passed as both the wanted
    and the obtained format: a native window that reports format 0 or less
    pushes nothing. *)
Theorem X17_pushed_format_is_valid (v : Variant) (m : Machine) (acts : list Action) :
  Forall valid_format (snd (run v m acts)).
Proof.
  apply run_forall. apply pumps_valid_format.
Qed.

(** ** A paused NonBlocking call with nothing to do *)

(** X18.  A call of the NonBlocking pump that finds the machine paused,
    the backup flag down and no Resume signal raised changes nothing: the
    state is the one it was given and all it records is the failed poll of
    the Resume semaphore, the corrective audio cycle if the detector
    fires, and its return. *)
Theorem X18_paused_poll_changes_nothing (w : World) (e : Env) :
  isPaused (videodata w) = true ->
  backup_context (statics w) = false ->
  ResumeSem w = 0%nat ->
  step NonBlocking (mkMachine w AppCode) (PumpEvents e)
  = (mkMachine w AppCode, paused_idle_output e).
Proof.
  intros Hp Hf Hr.
  destruct w as [[paused pausing audio] win [sv pw ph pr flag] g ps rs q].
  cbn in Hp, Hf, Hr; subst paused flag rs. unfold paused_idle_output.
  cbn [step thread world]; unfold_pumps; unfold_monad; pump_cbn;
    pump_cases; reflexivity.
Qed.

Lemma X18_witness :
  isPaused (videodata paused_world) = true
  /\ backup_context (statics paused_world) = false
  /\ ResumeSem paused_world = 0%nat
  /\ step NonBlocking (mkMachine paused_world AppCode) (PumpEvents quiet_env)
     = (mkMachine paused_world AppCode, paused_idle_output quiet_env).
Proof.
  split; [reflexivity|]. split; [reflexivity|]. split; [reflexivity|].
  apply (X18_paused_poll_changes_nothing paused_world quiet_env); reflexivity.
Defined.

(** ** Device resets *)

Lemma reset_monitor_state l :
  forall s s', monitor reset_budget s l = Some s' -> s' = resets_since_restore s l.
Proof.
  induction l as [|o l IH]; intros s s' H; cbn in H.
  - inversion H. reflexivity.
  - destruct (reset_budget s o) as [s1|] eqn:E; [|discriminate].
    specialize (IH _ _ H). subst s'. cbn. f_equal.
    unfold reset_budget in E.
    destruct (is_restore o); [inversion E; reflexivity|].
    destruct (is_device_reset o); [|inversion E; reflexivity].
    destruct s as [k|]; [|discriminate].
    destruct (k <? 2)%nat; inversion E; reflexivity.
Qed.

Lemma restore_reset_calls e w :
  exists w' out k,
    android_egl_context_restore e w = (tt, w', out)
    /\ restore_frame w w'
    /\ forall s l, monitor reset_budget s (out ++ l)
                   = monitor reset_budget (Some k) l.
Proof.
  destruct w as [vd [win|] st g ps rs q].
  2:{ do 3 eexists. split; [reflexivity|]. split.
      - repeat split. exists 0%nat. cbn. rewrite app_nil_r. reflexivity.
      - intros s l. reflexivity. }
  restore_cases e win;
    (do 3 eexists; split; [reflexivity|]; split;
     [ unfold restore_frame; cbn; repeat split;
       first [ exists 0%nat; cbn; rewrite ?app_nil_r; reflexivity
             | exists 1%nat; cbn; reflexivity
             | exists 2%nat; cbn; rewrite <- ?app_assoc; reflexivity ]
     | intros s l; cbn; reflexivity ]).
Qed.

Lemma backup_reset_calls rest :
  Forall backup_body rest ->
  Forall (fun o => forall s, reset_budget s o = Some s) rest.
Proof.
  apply Forall_impl. intros o Ho s. destruct o; try contradiction; reflexivity.
Qed.

Ltac reset_context_call :=
  match goal with
  | |- context [android_egl_context_restore ?e ?w] =>
      let w' := fresh "w'" in
      let out := fresh "out" in
      let k0 := fresh "k0" in
      let Heq := fresh "Heq" in
      let Hvd := fresh "Hvd" in
      let Hps := fresh "Hps" in
      let Hrs := fresh "Hrs" in
      let Hsv := fresh "Hsv" in
      let Hbc := fresh "Hbc" in
      let Hq := fresh "Hq" in
      let Hout := fresh "Hout" in
      let vd' := fresh "vd'" in
      let win' := fresh "win'" in
      let sv' := fresh "sv'" in
      let pw' := fresh "pw'" in
      let ph' := fresh "ph'" in
      let pr' := fresh "pr'" in
      let bc' := fresh "bc'" in
      let g' := fresh "g'" in
      let ps' := fresh "ps'" in
      let rs' := fresh "rs'" in
      let q' := fresh "q'" in
      let k := fresh "k" in
      destruct (restore_reset_calls e w)
        as (w' & out & k0 & Heq & (Hvd & Hps & Hrs & Hsv & Hbc & k & Hq) & Hout);
      rewrite Heq; clear Heq;
      destruct w' as [vd' win' [sv' pw' ph' pr' bc'] g' ps' rs' q'];
      cbn in Hvd, Hps, Hrs, Hsv, Hbc, Hq;
      subst vd' ps' rs' sv' bc' q'; pump_cbn
  end.

Ltac reset_cases :=
  repeat first
    [ reset_context_call
    | context_call
    | match goal with
      | |- context [if ?b then _ else _] => destruct b eqn:?; pump_cbn
      | |- context [match ?n with O => _ | S _ => _ end] =>
          destruct n eqn:?; pump_cbn
      end ].

Ltac reset_run :=
  repeat match goal with
         | H : Forall backup_body _ |- _ => apply backup_reset_calls in H
         end;
  repeat first
    [ match goal with
      | H : forall s l, monitor reset_budget s (?out ++ l) = _
        |- context [monitor reset_budget _ (?out ++ _)] => rewrite H
      end
    | rewrite monitor_skip by assumption
    | rewrite <- app_assoc
    | progress cbn [monitor reset_budget is_restore is_device_reset app] ].

Lemma step_resets v m a s :
  exists s', monitor reset_budget s (snd (step v m a)) = Some s'.
Proof.
  destruct m as [w t].
  destruct a; cbn [step app_acts thread world];
    try (destruct t; eexists; reflexivity).
  - destruct t; [|eexists; reflexivity].
    destruct w as [[paused pausing audio] win st g ps rs q].
    destruct v; unfold_pumps; unfold_monad; pump_cbn;
      reset_cases; reset_run; eexists; reflexivity.
  - destruct t as [|e ext]; [eexists; reflexivity|].
    destruct w as [[paused pausing audio] win st g ps rs q].
    unfold_pumps; unfold_monad; pump_cbn;
      reset_cases; reset_run; eexists; reflexivity.
Qed.

(** X19.  In any run of either pump, from any state, a device reset is
    only ever pushed after the context restore was entered, and at most
    twice per restore: when one is pushed, the restore has been entered
    and fewer than two resets were pushed since. *)
Theorem X19_device_resets_belong_to_a_restore (v : Variant) (m : Machine)
        (acts : list Action) (l1 l2 : list Obs) (x : Obs) :
  snd (run v m acts) = l1 ++ x :: l2 ->
  is_device_reset x = true ->
  exists k, resets_since_restore None l1 = Some k /\ (k < 2)%nat.
Proof.
  intros Heq Hx.
  destruct (run_monitor reset_budget v (fun _ _ => True)) with
    (acts := acts) (m := m) (s := @None nat) as (s' & Hm & _).
  - intros m0 a0 s0 _. destruct (step_resets v m0 a0 s0) as (s1 & H1).
    exists s1. split; [exact H1 | exact I].
  - exact I.
  - rewrite Heq in Hm.
    destruct (monitor_prefix _ _ _ _ _ _ Hm) as (s1 & s2 & H1 & H2).
    apply reset_monitor_state in H1. rewrite <- H1.
    unfold reset_budget in H2. rewrite Hx in H2.
    destruct (is_restore x) eqn:Er; [destruct x; discriminate|].
    destruct s1 as [k|]; [|discriminate].
    destruct (k <? 2)%nat eqn:Ek; [|discriminate].
    exists k. split; [reflexivity | apply Nat.ltb_lt; exact Ek].
Qed.

Lemma X19_witness :
  snd (run Blocking (mkMachine sample_world AppCode) lost_context_cycle)
  = firstn 34 (snd (run Blocking (mkMachine sample_world AppCode) lost_context_cycle))
    ++ CPushEvent SDL_RENDER_DEVICE_RESET
    :: skipn 35 (snd (run Blocking (mkMachine sample_world AppCode) lost_context_cycle))
  /\ is_device_reset (CPushEvent SDL_RENDER_DEVICE_RESET) = true
  /\ exists k,
       resets_since_restore None
         (firstn 34 (snd (run Blocking (mkMachine sample_world AppCode)
                              lost_context_cycle))) = Some k
       /\ (k < 2)%nat.
Proof.
  assert (H : snd (run Blocking (mkMachine sample_world AppCode) lost_context_cycle)
              = firstn 34 (snd (run Blocking (mkMachine sample_world AppCode)
                                    lost_context_cycle))
                ++ CPushEvent SDL_RENDER_DEVICE_RESET
                :: skipn 35 (snd (run Blocking (mkMachine sample_world AppCode)
                                      lost_context_cycle)))
    by (vm_compute; reflexivity).
  split; [exact H|]. split; [reflexivity|].
  exact (X19_device_resets_belong_to_a_restore Blocking
           (mkMachine sample_world AppCode) lost_context_cycle _ _ _ H eq_refl).
Defined.
